(** * Telegram invite service: request lifecycle, worker retries, join webhook

    A shallow embedding of [server.js].  The three Express handlers
    ([/v1/invite/request], [/v1/invite/worker], [/v1/telegram/webhook]) become
    functions from the inbound request, the answers of the outside world during
    that invocation ([Env]) and the state of the collaborators ([World]) to a
    reply and the next [World].  Firestore collections are finite maps keyed by
    document id; Cloud Tasks, WebEngage and the Telegram Bot API are append-only
    logs of the calls made to them. *)

From Stdlib Require Import ZArith String List Bool Lia.
From stdpp Require Import base option list gmap strings fin_maps pretty.

Local Open Scope Z_scope.
Local Open Scope string_scope.

(** ** Constants *)

Definition COL_REQ : string := "invite_requests".
Definition COL_INV : string := "invite_lookup".
Definition MAX_ATTEMPTS : Z := 50.
Definition TASKS_QUEUE : string := "tg-invite-queue".

(** ** Documents *)

(** [now()] yields an ISO-8601 string; it is only stored, never inspected. *)
Definition Timestamp : Type := string.

Inductive Status : Type := QUEUED | PROCESSING | DONE | FAILED.

#[global] Instance Status_eq_dec : EqDecision Status.
Proof. solve_decision. Defined.

(** A document of [invite_requests].  The three trailing fields are absent
    from the document written by the request endpoint and appear with the
    first [update] that carries them. *)
Record ReqDoc : Type := mkReqDoc {
  requestId : string;
  userId : string;
  transactionId : string;
  status : Status;
  attempts : Z;
  createdAt : Timestamp;
  updatedAt : Timestamp;
  weLinkEventFired : bool;
  joinEventFired : bool;
  inviteLink : option string;
  joinedAt : option Timestamp;
  telegramUserId : option Z
}.

(** A document of [invite_lookup], keyed by [sha256(inviteLink)]. *)
Record InvDoc : Type := mkInvDoc {
  lk_inviteLink : string;
  lk_requestId : string;
  lk_userId : string;
  lk_transactionId : string;
  lk_createdAt : Timestamp
}.

(** One key of the object literal handed to [ref.update]. *)
Inductive Field : Type :=
| f_status (s : Status)
| f_attempts (n : Z)
| f_updatedAt (t : Timestamp)
| f_inviteLink (l : string)
| f_weLinkEventFired (b : bool)
| f_joinEventFired (b : bool)
| f_joinedAt (t : Timestamp)
| f_telegramUserId (n : Z).

Definition apply_field (f : Field) (d : ReqDoc) : ReqDoc :=
  match f with
  | f_status s =>
      mkReqDoc (requestId d) (userId d) (transactionId d) s (attempts d)
        (createdAt d) (updatedAt d) (weLinkEventFired d) (joinEventFired d)
        (inviteLink d) (joinedAt d) (telegramUserId d)
  | f_attempts n =>
      mkReqDoc (requestId d) (userId d) (transactionId d) (status d) n
        (createdAt d) (updatedAt d) (weLinkEventFired d) (joinEventFired d)
        (inviteLink d) (joinedAt d) (telegramUserId d)
  | f_updatedAt t =>
      mkReqDoc (requestId d) (userId d) (transactionId d) (status d) (attempts d)
        (createdAt d) t (weLinkEventFired d) (joinEventFired d)
        (inviteLink d) (joinedAt d) (telegramUserId d)
  | f_inviteLink l =>
      mkReqDoc (requestId d) (userId d) (transactionId d) (status d) (attempts d)
        (createdAt d) (updatedAt d) (weLinkEventFired d) (joinEventFired d)
        (Some l) (joinedAt d) (telegramUserId d)
  | f_weLinkEventFired b =>
      mkReqDoc (requestId d) (userId d) (transactionId d) (status d) (attempts d)
        (createdAt d) (updatedAt d) b (joinEventFired d)
        (inviteLink d) (joinedAt d) (telegramUserId d)
  | f_joinEventFired b =>
      mkReqDoc (requestId d) (userId d) (transactionId d) (status d) (attempts d)
        (createdAt d) (updatedAt d) (weLinkEventFired d) b
        (inviteLink d) (joinedAt d) (telegramUserId d)
  | f_joinedAt t =>
      mkReqDoc (requestId d) (userId d) (transactionId d) (status d) (attempts d)
        (createdAt d) (updatedAt d) (weLinkEventFired d) (joinEventFired d)
        (inviteLink d) (Some t) (telegramUserId d)
  | f_telegramUserId n =>
      mkReqDoc (requestId d) (userId d) (transactionId d) (status d) (attempts d)
        (createdAt d) (updatedAt d) (weLinkEventFired d) (joinEventFired d)
        (inviteLink d) (joinedAt d) (Some n)
  end.

(** Firestore [update] merges the given keys into the stored document. *)
Definition apply_patch (p : list Field) (d : ReqDoc) : ReqDoc :=
  fold_left (fun acc f => apply_field f acc) p d.

(** ** Collaborators *)

(** A task created by [enqueueWorker]: the [requestId] of its body, the
    [delaySec] argument of the call, and the [scheduleTime.seconds] it was
    given (absent for an immediate task). *)
Record Task : Type := mkTask {
  task_requestId : string;
  task_delaySec : Z;
  task_scheduleTime : option Z
}.

(** A call of [fireWebEngage]. *)
Record Event : Type := mkEvent {
  ev_userId : string;
  ev_eventName : string;
  ev_transactionId : string;
  ev_inviteLink : string;
  ev_telegramUserId : option string
}.

(** A write sent to Firestore, in program order. *)
Inductive Write : Type :=
| w_set_req (id : string) (d : ReqDoc)
| w_update_req (id : string) (p : list Field)
| w_set_inv (id : string) (d : InvDoc).

Record World : Type := mkWorld {
  invite_requests : gmap string ReqDoc;
  invite_lookup : gmap string InvDoc;
  queue : list Task;
  webengage : list Event;
  telegram : list string;
  writes : list Write
}.

Definition empty_world : World := mkWorld ∅ ∅ [] [] [] [].

(** What [createTelegramLink] returns: [res.ok], and the two places of
    [res.json()] the worker reads through optional chaining. *)
Record TgResponse : Type := mkTg {
  tg_ok : bool;
  tg_retry_after : option Z;
  tg_invite_link : option string
}.

(** The outside world as seen by one handler invocation. *)
Record Env : Type := mkEnv {
  randomUUID : string;
  clock : nat -> Timestamp;
  dateNow : Z;
  tg : TgResponse;
  we_ok : bool
}.

(** The [k]-th evaluation of [now()] inside the invocation. *)
Definition now (e : Env) (k : nat) : Timestamp := clock e k.

(** ** Replies *)

(** A value in a JSON reply. *)
Inductive JsonVal : Type :=
| JBool (b : bool)
| JStr (s : string).

(** [res.send(text)] or [res.json({key: value, ...})]. *)
Inductive Body : Type :=
| Text (s : string)
| Json (fields : list (string * JsonVal)).

(** What the handler does with [res]: it sends a status code and a body, or
    its promise rejects before anything is sent. *)
Inductive Reply : Type :=
| Sent (code : Z) (b : Body)
| Thrown.

Definition send (s : string) : Reply := Sent 200 (Text s).


(** ** JavaScript truthiness of the values the handlers test *)

(** [!s] for a string-or-undefined: the empty string is falsy. *)
Definition truthy_string (o : option string) : option string :=
  match o with
  | Some s => if String.eqb s "" then None else Some s
  | None => None
  end.

(** [!n] for a number-or-undefined: zero is falsy. *)
Definition truthy_number (o : option Z) : option Z :=
  match o with
  | Some n => if (n =? 0)%Z then None else Some n
  | None => None
  end.

(** [Number(tg.json?.parameters?.retry_after) || 10]: an absent hint gives
    [NaN], and both [NaN] and [0] fall through to the default. *)
Definition retryAfterOf (r : TgResponse) : Z :=
  match truthy_number (tg_retry_after r) with
  | Some n => n
  | None => 10
  end.

(** [["member", "administrator", "creator"].includes(status)] *)
Definition recognized (st : option string) : bool :=
  match st with
  | Some s => String.eqb s "member" || String.eqb s "administrator" || String.eqb s "creator"
  | None => false
  end.

(** ** Primitive effects on the world *)

Definition log_write (x : Write) (w : World) : World :=
  mkWorld (invite_requests w) (invite_lookup w) (queue w) (webengage w)
    (telegram w) (writes w ++ [x]).

(** [db.collection(COL_REQ).doc(id).set(d)] *)
Definition req_set (id : string) (d : ReqDoc) (w : World) : World :=
  log_write (w_set_req id d)
    (mkWorld (<[id := d]> (invite_requests w)) (invite_lookup w) (queue w)
       (webengage w) (telegram w) (writes w)).

(** [ref.update(p)] on a document of [invite_requests].  Firestore rejects
    an update of a missing document; every call site has read the document
    just before, so that branch leaves the world as it is. *)
Definition req_update (id : string) (p : list Field) (w : World) : World :=
  match invite_requests w !! id with
  | Some d =>
      log_write (w_update_req id p)
        (mkWorld (<[id := apply_patch p d]> (invite_requests w)) (invite_lookup w)
           (queue w) (webengage w) (telegram w) (writes w))
  | None => w
  end.

(** [db.collection(COL_INV).doc(id).set(d)] *)
Definition inv_set (id : string) (d : InvDoc) (w : World) : World :=
  log_write (w_set_inv id d)
    (mkWorld (invite_requests w) (<[id := d]> (invite_lookup w)) (queue w)
       (webengage w) (telegram w) (writes w)).

(** [enqueueWorker(requestId, delaySec = 0)]: [scheduleTime] is set only for
    a positive delay. *)
Definition enqueueWorker (e : Env) (rid : string) (delaySec : Z) (w : World) : World :=
  let scheduleTime :=
    if (0 <? delaySec)%Z then Some (dateNow e / 1000 + delaySec)%Z else None in
  mkWorld (invite_requests w) (invite_lookup w)
    (queue w ++ [mkTask rid delaySec scheduleTime])
    (webengage w) (telegram w) (writes w).

(** [fireWebEngage(userId, eventName, eventData)] posts the event and
    returns [res.ok]. *)
Definition fireWebEngage (e : Env) (ev : Event) (w : World) : bool * World :=
  (we_ok e,
   mkWorld (invite_requests w) (invite_lookup w) (queue w)
     (webengage w ++ [ev]) (telegram w) (writes w)).

(** [createTelegramLink(name)], for a call that returns: the request is
    answered and the body parses, so [res.ok] and [res.json()] are there.  A
    call that rejects is not among the answers an [Env] can hold. *)
Definition createTelegramLink (e : Env) (name : string) (w : World) : TgResponse * World :=
  (tg e,
   mkWorld (invite_requests w) (invite_lookup w) (queue w) (webengage w)
     (telegram w ++ [name]) (writes w)).

(** ** Inbound requests *)

Record CreateBody : Type := mkCreateBody {
  cb_userId : option string;
  cb_transactionId : option string
}.

Record WorkerReq : Type := mkWorkerReq {
  hdr_cloudtasks_queuename : option string;
  wb_requestId : option string
}.

(** The [chat_member] / [my_chat_member] object of a Telegram update, reduced
    to the three paths the webhook reads. *)
Record ChatMemberUpdated : Type := mkUpd {
  upd_invite_link : option string;
  upd_status : option string;
  upd_user_id : option Z
}.

Record WebhookBody : Type := mkWebhookBody {
  chat_member : option ChatMemberUpdated;
  my_chat_member : option ChatMemberUpdated
}.

(** [req.body.chat_member || req.body.my_chat_member] *)
Definition update_of (body : WebhookBody) : option ChatMemberUpdated :=
  match chat_member body with
  | Some u => Some u
  | None => my_chat_member body
  end.

(** The HTTP request Cloud Tasks delivers for a task made by [enqueueWorker]:
    the body is [{requestId}] and the service adds its queue-name header. *)
Definition taskRequest (rid : string) : WorkerReq :=
  mkWorkerReq (Some TASKS_QUEUE) (Some rid).

(** ** 1) Invite request *)

Definition invite_request (body : CreateBody) (e : Env) (w : World) : Reply * World :=
  match truthy_string (cb_userId body) with
  | None => (Sent 400 (Json [("error", JStr "Missing userId")]), w)
  | Some uid =>
      let txn := default "" (cb_transactionId body) in
      let rid := randomUUID e in
      let w1 :=
        req_set rid
          (mkReqDoc rid uid txn QUEUED 0 (now e 0) (now e 1) false false
             None None None) w in
      let w2 := enqueueWorker e rid 0 w1 in
      (Sent 200
         (Json [("ok", JBool true); ("status", JStr "queued"); ("requestId", JStr rid)]),
       w2)
  end.

(** The [name] given to the invite link, cut to 255 characters. *)
Definition link_name (d : ReqDoc) (rid : string) (n : Z) : string :=
  String.substring 0 255
    ("uid:" +:+ userId d +:+ "|txn:" +:+ transactionId d +:+ "|rid:" +:+ rid
       +:+ "|a:" +:+ pretty n).

Section Service.

(** [sha256] is Node's digest; nothing below depends on which function it is. *)
Context (sha256 : string -> string).

(** ** 2) Worker *)

(** The [requestId] of the body is used as it comes as the id of the
    document to read: it is taken to be one Firestore accepts as a document
    id, as the UUIDs of the request endpoint are. *)

Definition worker (req : WorkerReq) (e : Env) (w : World) : Reply * World :=
  match truthy_string (hdr_cloudtasks_queuename req) with
  | None => (Sent 403 (Text "Forbidden"), w)
  | Some _ =>
  match truthy_string (wb_requestId req) with
  | None => (Sent 400 (Text "Missing requestId"), w)
  | Some rid =>
  match invite_requests w !! rid with
  | None => (send "ok", w)
  | Some doc =>
  if decide (status doc = DONE) then (send "ok", w) else
  let n := (attempts doc + 1)%Z in
  if (MAX_ATTEMPTS <? n)%Z then
    (send "ok", req_update rid [f_status FAILED; f_updatedAt (now e 0)] w)
  else
  let w1 := req_update rid [f_status PROCESSING; f_attempts n; f_updatedAt (now e 0)] w in
  let '(r, w2) := createTelegramLink e (link_name doc rid n) w1 in
  if negb (tg_ok r) then
    let retryAfter := retryAfterOf r in
    let w3 := req_update rid [f_status QUEUED] w2 in
    let w4 := enqueueWorker e rid retryAfter w3 in
    (send "retry scheduled", w4)
  else
  match tg_invite_link r with
  | None =>
      (* Firestore refuses [undefined] as a field value: [set] throws *)
      (Thrown, w2)
  | Some link =>
      let inviteHash := sha256 link in
      let w3 :=
        inv_set inviteHash
          (mkInvDoc link rid (userId doc) (transactionId doc) (now e 1)) w2 in
      let w4 := req_update rid [f_status DONE; f_inviteLink link; f_updatedAt (now e 2)] w3 in
      if negb (weLinkEventFired doc) then
        let '(ok, w5) :=
          fireWebEngage e
            (mkEvent (userId doc) "pass_paid_community_telegram_link_created"
               (transactionId doc) link None) w4 in
        (send "ok", req_update rid [f_weLinkEventFired ok] w5)
      else (send "ok", w4)
  end
  end end end.

(** The worker step the task queue runs for [rid]. *)
Definition processStep (rid : string) (e : Env) (w : World) : Reply * World :=
  worker (taskRequest rid) e w.

(** ** 3) Telegram webhook *)

Definition webhook (body : WebhookBody) (e : Env) (w : World) : Reply * World :=
  match update_of body with
  | None => (send "ignored", w)
  | Some upd =>
  match truthy_string (upd_invite_link upd), truthy_number (upd_user_id upd),
        recognized (upd_status upd) with
  | Some link, Some tgUser, true =>
      let inviteHash := sha256 link in
      match invite_lookup w !! inviteHash with
      | None => (send "orphan", w)
      | Some l =>
      let rid := lk_requestId l in
      match invite_requests w !! rid with
      | None => (send "ok", w)
      | Some reqDoc =>
      if joinEventFired reqDoc then (send "ok", w) else
      let '(ok, w1) :=
        fireWebEngage e
          (mkEvent (userId reqDoc) "pass_paid_community_telegram_joined"
             (transactionId reqDoc) link (Some (pretty tgUser))) w in
      (send "ok",
       req_update rid
         [f_joinEventFired ok; f_joinedAt (now e 0); f_telegramUserId tgUser;
          f_updatedAt (now e 1)] w1)
      end end
  | _, _, _ => (send "ignored", w)
  end end.

End Service.

(** ** Runs *)

(** Successive worker steps for one request, one [Env] per step. *)
Fixpoint processSteps (sha256 : string -> string) (rid : string) (es : list Env)
    (w : World) : World :=
  match es with
  | [] => w
  | e :: es' => processSteps sha256 rid es' (snd (processStep sha256 rid e w))
  end.

(** Successive deliveries of webhook updates. *)
Fixpoint webhooks (sha256 : string -> string) (sigs : list (WebhookBody * Env))
    (w : World) : World :=
  match sigs with
  | [] => w
  | (b, e) :: rest => webhooks sha256 rest (snd (webhook sha256 b e w))
  end.

(** One inbound HTTP request to the service. *)
Inductive Op : Type :=
| op_request (b : CreateBody) (e : Env)
| op_worker (r : WorkerReq) (e : Env)
| op_webhook (b : WebhookBody) (e : Env).

Definition exec (sha256 : string -> string) (o : Op) (w : World) : World :=
  match o with
  | op_request b e => snd (invite_request b e w)
  | op_worker r e => snd (worker sha256 r e w)
  | op_webhook b e => snd (webhook sha256 b e w)
  end.

(** The world after serving [ops] one after the other. *)
Definition run (sha256 : string -> string) (ops : list Op) (w : World) : World :=
  fold_left (fun acc o => exec sha256 o acc) ops w.

Definition is_worker (o : Op) : Prop :=
  match o with op_worker _ _ => True | _ => False end.

(** The invite link and Telegram user of an update that passes the webhook's
    validation, [None] for an update the webhook ignores. *)
Definition signal_of (body : WebhookBody) : option (string * Z) :=
  match update_of body with
  | None => None
  | Some upd =>
      match truthy_string (upd_invite_link upd), truthy_number (upd_user_id upd),
            recognized (upd_status upd) with
      | Some link, Some tgUser, true => Some (link, tgUser)
      | _, _, _ => None
      end
  end.

(** ** Observations *)

(** A worker step in which the Telegram call does not succeed ([!tg.ok]). *)
Definition refused (e : Env) : Prop := tg_ok (tg e) = false.

Definition status_of (rid : string) (w : World) : option Status :=
  status <$> invite_requests w !! rid.

Definition redeemer_of (rid : string) (w : World) : option Z :=
  invite_requests w !! rid ≫= telegramUserId.

(** Whether an [update] patch carries the [updatedAt] key. *)
Definition carries_updatedAt (p : list Field) : bool :=
  existsb (fun f => match f with f_updatedAt _ => true | _ => false end) p.

(** Whether a write refreshes [updatedAt] of the request document it touches;
    writes to [invite_lookup] touch none. *)
Definition refreshes (x : Write) : bool :=
  match x with
  | w_set_req _ _ => true
  | w_update_req _ p => carries_updatedAt p
  | w_set_inv _ _ => true
  end.

(** The number of "joined" events posted to WebEngage. *)
Definition joined_events (w : World) : nat :=
  length (filter (fun ev => ev_eventName ev = "pass_paid_community_telegram_joined")
            (webengage w)).

(** The bounds the worker maintains on a request document. *)
Definition doc_ok (d : ReqDoc) : Prop :=
  (0 <= attempts d <= MAX_ATTEMPTS)%Z /\
  (status d = FAILED -> attempts d = MAX_ATTEMPTS).

Definition world_ok (w : World) : Prop :=
  map_Forall (fun _ d => doc_ok d) (invite_requests w).

(** ** Sample data for the concrete runs *)

(** A stand-in digest for running examples; the theorems hold for any. *)
Definition sample_sha256 (s : string) : string := "sha256:" +:+ s.

Definition sample_clock (tag : string) (k : nat) : Timestamp :=
  tag +:+ "#" +:+ pretty (Z.of_nat k).

Definition tg_rate_limited (hint : option Z) : TgResponse := mkTg false hint None.
Definition tg_issued (link : string) : TgResponse := mkTg true None (Some link).

Definition sample_env (tag : string) (r : TgResponse) (sink : bool) : Env :=
  mkEnv "req-1" (sample_clock tag) 1700000000123 r sink.

Definition sample_body : CreateBody := mkCreateBody (Some "u1") (Some "txn1").

(** Scenario A: the world after [POST /v1/invite/request] for user "u1". *)
Definition world_A : World :=
  snd (invite_request sample_body (sample_env "t0" (tg_rate_limited None) true)
         empty_world).

(** Scenario C: then one worker step in which Telegram issues link "X". *)
Definition world_C : World :=
  snd (processStep sample_sha256 "req-1" (sample_env "t1" (tg_issued "X") true) world_A).

Definition join_signal (link : string) (st : string) (user : Z) : WebhookBody :=
  mkWebhookBody (Some (mkUpd (Some link) (Some st) (Some user))) None.

(** A worker step refused with [retry_after] = 30, and one that issues "X". *)
Definition env_refused30 : Env := sample_env "t1" (tg_rate_limited (Some 30)) true.
Definition env_issued : Env := sample_env "t1" (tg_issued "X") true.

(** The document of "req-1" and the lookup entry of link "X" in [world_C]. *)
Definition doc_C : ReqDoc :=
  mkReqDoc "req-1" "u1" "txn1" DONE 1 "t0#0" "t1#2" true false (Some "X") None None.
Definition entry_C : InvDoc := mkInvDoc "X" "req-1" "u1" "txn1" "t1#1".

(** The document of "req-1" in [world_A]. *)
Definition doc_A : ReqDoc :=
  mkReqDoc "req-1" "u1" "txn1" QUEUED 0 "t0#0" "t0#1" false false None None None.

(** The request endpoint followed by 51 refused worker steps. *)
Definition ops_exhausted : list Op :=
  op_request sample_body (sample_env "t0" (tg_rate_limited None) true)
    :: replicate 51 (op_worker (taskRequest "req-1") env_refused30).

(** ** Further observations *)

(** An operation that does not create a document under [rid] again: every
    worker or webhook call, and a request call whose UUID is another one. *)
Definition spares (rid : string) (o : Op) : Prop :=
  match o with
  | op_request _ e => randomUUID e <> rid
  | _ => True
  end.

(** How a request document may differ from an earlier version of itself. *)
Definition evolves (d d' : ReqDoc) : Prop :=
  requestId d' = requestId d /\ userId d' = userId d /\
  transactionId d' = transactionId d /\ createdAt d' = createdAt d /\
  (attempts d <= attempts d')%Z /\
  (weLinkEventFired d = true -> weLinkEventFired d' = true) /\
  (joinEventFired d = true ->
   joinEventFired d' = true /\ telegramUserId d' = telegramUserId d /\
   joinedAt d' = joinedAt d) /\
  (status d = DONE ->
   status d' = DONE /\ inviteLink d' = inviteLink d /\ attempts d' = attempts d).

(** The number of "link created" events posted to WebEngage. *)
Definition link_events (w : World) : nat :=
  length (filter (fun ev => ev_eventName ev = "pass_paid_community_telegram_link_created")
            (webengage w)).

(** The template literal of the link name before [.slice(0, 255)]. *)
Definition name_template (d : ReqDoc) (rid : string) (n : Z) : string :=
  "uid:" +:+ userId d +:+ "|txn:" +:+ transactionId d +:+ "|rid:" +:+ rid
    +:+ "|a:" +:+ pretty n.

(** What the documents and the index of a world owe each other. *)
Definition docs_ok (sha256 : string -> string) (w : World) : Prop :=
  forall (rid : string) (d : ReqDoc),
    invite_requests w !! rid = Some d ->
    requestId d = rid /\
    (status d = DONE <-> is_Some (inviteLink d)) /\
    (0 <= attempts d)%Z /\ (status d = DONE -> (1 <= attempts d)%Z) /\
    (weLinkEventFired d = true -> status d = DONE) /\
    (forall link, inviteLink d = Some link ->
       is_Some (invite_lookup w !! sha256 link)).

Definition index_ok (sha256 : string -> string) (w : World) : Prop :=
  forall (h : string) (l : InvDoc),
    invite_lookup w !! h = Some l ->
    h = sha256 (lk_inviteLink l) /\ is_Some (invite_requests w !! lk_requestId l).

(** Each set event flag has its event in the WebEngage log. *)
Definition flags_backed (w : World) : Prop :=
  forall (rid : string) (d : ReqDoc),
    invite_requests w !! rid = Some d ->
    (weLinkEventFired d = true ->
     exists ev, ev ∈ webengage w /\
       ev_eventName ev = "pass_paid_community_telegram_link_created" /\
       ev_userId ev = userId d /\ Some (ev_inviteLink ev) = inviteLink d) /\
    (joinEventFired d = true ->
     exists ev, ev ∈ webengage w /\
       ev_eventName ev = "pass_paid_community_telegram_joined" /\
       ev_userId ev = userId d /\
       ev_telegramUserId ev = (pretty <$> telegramUserId d)).

(** A write that stamps [updatedAt], or one of the two updates that do not. *)
Definition stamped_or_known (x : Write) : Prop :=
  refreshes x = true \/
  (exists rid, x = w_update_req rid [f_status QUEUED]) \/
  (exists rid b, x = w_update_req rid [f_weLinkEventFired b]).

(** ** More sample data *)

(** A second request, under UUID "req-2". *)
Definition env_second : Env :=
  mkEnv "req-2" (sample_clock "t5") 1700000100456 (tg_rate_limited None) true.

(** A refused worker step for "req-1", a join update for link "X" and a second
    request, in that order. *)
Definition ops_mixed : list Op :=
  [op_worker (taskRequest "req-1") env_refused30;
   op_webhook (join_signal "X" "member" 99) (sample_env "t2" (tg_issued "X") true);
   op_request (mkCreateBody (Some "u2") None) env_second].

(** The request endpoint followed by the worker step that issues "X". *)
Definition ops_issue : list Op :=
  [op_request sample_body (sample_env "t0" (tg_rate_limited None) true);
   op_worker (taskRequest "req-1") env_issued].

(** * Properties *)

Section Properties.

Context (sha256 : string -> string).

(** ** Truthiness *)

Lemma truthy_string_Some (s : string) : s <> "" -> truthy_string (Some s) = Some s.
Proof.
  intros Hs. unfold truthy_string.
  destruct (String.eqb_spec s ""); [contradiction | reflexivity].
Qed.

Lemma truthy_string_inv (o : option string) (s : string) :
  truthy_string o = Some s -> o = Some s /\ s <> "".
Proof.
  destruct o as [x|]; simpl; [|discriminate].
  destruct (String.eqb_spec x ""); [discriminate|].
  intros [= <-]. split; [reflexivity | assumption].
Qed.

Lemma truthy_number_inv (o : option Z) (n : Z) :
  truthy_number o = Some n -> o = Some n /\ n <> 0%Z.
Proof.
  destruct o as [x|]; simpl; [|discriminate].
  destruct (Z.eqb_spec x 0); [discriminate|].
  intros [= <-]. split; [reflexivity | assumption].
Qed.

(** ** Firestore primitives *)

Lemma req_update_hit (id : string) (p : list Field) (w : World) (d : ReqDoc) :
  invite_requests w !! id = Some d ->
  req_update id p w =
  mkWorld (<[id := apply_patch p d]> (invite_requests w)) (invite_lookup w)
    (queue w) (webengage w) (telegram w) (writes w ++ [w_update_req id p]).
Proof. intros H. unfold req_update. rewrite H. reflexivity. Qed.

Lemma req_update_requests (id : string) (p : list Field) (w : World) :
  invite_requests (req_update id p w) = alter (apply_patch p) id (invite_requests w).
Proof.
  unfold req_update. destruct (invite_requests w !! id) as [d|] eqn:E; simpl.
  - apply map_eq. intros k. rewrite lookup_insert, lookup_alter.
    case_decide; [subst k; rewrite E; reflexivity | reflexivity].
  - apply map_eq. intros k. rewrite lookup_alter.
    case_decide; [subst k; rewrite E; reflexivity | reflexivity].
Qed.

Lemma req_update_lookup (id : string) (p : list Field) (w : World) :
  invite_lookup (req_update id p w) = invite_lookup w.
Proof. unfold req_update. destruct (invite_requests w !! id); reflexivity. Qed.

(** ** The paths of the worker *)

Lemma processStep_unfold (rid : string) (e : Env) (w : World) :
  rid <> "" ->
  processStep sha256 rid e w =
  match invite_requests w !! rid with
  | None => (send "ok", w)
  | Some doc =>
  if decide (status doc = DONE) then (send "ok", w) else
  let n := (attempts doc + 1)%Z in
  if (MAX_ATTEMPTS <? n)%Z then
    (send "ok", req_update rid [f_status FAILED; f_updatedAt (now e 0)] w)
  else
  let w1 := req_update rid [f_status PROCESSING; f_attempts n; f_updatedAt (now e 0)] w in
  let '(r, w2) := createTelegramLink e (link_name doc rid n) w1 in
  if negb (tg_ok r) then
    (send "retry scheduled",
     enqueueWorker e rid (retryAfterOf r) (req_update rid [f_status QUEUED] w2))
  else
  match tg_invite_link r with
  | None => (Thrown, w2)
  | Some link =>
      let w3 :=
        inv_set (sha256 link)
          (mkInvDoc link rid (userId doc) (transactionId doc) (now e 1)) w2 in
      let w4 := req_update rid [f_status DONE; f_inviteLink link; f_updatedAt (now e 2)] w3 in
      if negb (weLinkEventFired doc) then
        let '(ok, w5) :=
          fireWebEngage e
            (mkEvent (userId doc) "pass_paid_community_telegram_link_created"
               (transactionId doc) link None) w4 in
        (send "ok", req_update rid [f_weLinkEventFired ok] w5)
      else (send "ok", w4)
  end
  end.
Proof.
  intros Hrid. unfold processStep, worker, taskRequest. simpl hdr_cloudtasks_queuename.
  simpl wb_requestId. rewrite (truthy_string_Some rid Hrid).
  reflexivity.
Qed.

(** A step on a request that is [DONE], or on an id with no document, is a
    no-op on every part of the world. *)
Lemma processStep_done (rid : string) (e : Env) (w : World) (doc : ReqDoc) :
  invite_requests w !! rid = Some doc -> status doc = DONE ->
  snd (processStep sha256 rid e w) = w.
Proof.
  intros Hd Hs. destruct (decide (rid = "")) as [->|Hrid]; [reflexivity|].
  rewrite processStep_unfold by assumption. rewrite Hd.
  destruct (decide (status doc = DONE)); [reflexivity | contradiction].
Qed.

(** The step that finds the ceiling exceeded. *)
Lemma processStep_exhausted (rid : string) (e : Env) (w : World) (doc : ReqDoc) :
  rid <> "" -> invite_requests w !! rid = Some doc -> status doc <> DONE ->
  (MAX_ATTEMPTS < attempts doc + 1)%Z ->
  processStep sha256 rid e w =
  (send "ok",
   mkWorld
     (<[rid := mkReqDoc (requestId doc) (userId doc) (transactionId doc) FAILED
                 (attempts doc) (createdAt doc) (now e 0) (weLinkEventFired doc)
                 (joinEventFired doc) (inviteLink doc) (joinedAt doc)
                 (telegramUserId doc)]> (invite_requests w))
     (invite_lookup w) (queue w) (webengage w) (telegram w)
     (writes w ++ [w_update_req rid [f_status FAILED; f_updatedAt (now e 0)]])).
Proof.
  intros Hrid Hd Hs Hn. rewrite processStep_unfold by assumption. rewrite Hd.
  destruct (decide (status doc = DONE)); [contradiction|]. cbv zeta.
  destruct (Z.ltb_spec MAX_ATTEMPTS (attempts doc + 1)); [|lia].
  rewrite (req_update_hit _ _ _ _ Hd). reflexivity.
Qed.

(** The step whose issuer call is refused. *)
Lemma processStep_refused (rid : string) (e : Env) (w : World) (doc : ReqDoc) :
  rid <> "" -> invite_requests w !! rid = Some doc -> status doc <> DONE ->
  (attempts doc + 1 <= MAX_ATTEMPTS)%Z -> tg_ok (tg e) = false ->
  processStep sha256 rid e w =
  (send "retry scheduled",
   mkWorld
     (<[rid := mkReqDoc (requestId doc) (userId doc) (transactionId doc) QUEUED
                 (attempts doc + 1) (createdAt doc) (now e 0) (weLinkEventFired doc)
                 (joinEventFired doc) (inviteLink doc) (joinedAt doc)
                 (telegramUserId doc)]> (invite_requests w))
     (invite_lookup w)
     (queue w ++
        [mkTask rid (retryAfterOf (tg e))
           (if (0 <? retryAfterOf (tg e))%Z
            then Some (dateNow e / 1000 + retryAfterOf (tg e))%Z else None)])
     (webengage w)
     (telegram w ++ [link_name doc rid (attempts doc + 1)])
     (writes w ++
        [w_update_req rid
           [f_status PROCESSING; f_attempts (attempts doc + 1); f_updatedAt (now e 0)];
         w_update_req rid [f_status QUEUED]])).
Proof.
  intros Hrid Hd Hs Hn Hok. rewrite processStep_unfold by assumption. rewrite Hd.
  destruct (decide (status doc = DONE)); [contradiction|]. cbv zeta.
  destruct (Z.ltb_spec MAX_ATTEMPTS (attempts doc + 1)); [lia|].
  rewrite (req_update_hit _ _ _ _ Hd). unfold createTelegramLink. rewrite Hok.
  cbn [negb]. erewrite req_update_hit by (cbn [invite_requests]; apply lookup_insert_eq).
  unfold enqueueWorker. cbn [invite_requests invite_lookup queue webengage telegram writes].
  rewrite insert_insert_eq, <- app_assoc. reflexivity.
Qed.

(** The step whose issuer call returns a link. *)
Lemma processStep_issued (rid : string) (e : Env) (w : World) (doc : ReqDoc)
    (link : string) :
  rid <> "" -> invite_requests w !! rid = Some doc -> status doc <> DONE ->
  (attempts doc + 1 <= MAX_ATTEMPTS)%Z ->
  tg_ok (tg e) = true -> tg_invite_link (tg e) = Some link ->
  processStep sha256 rid e w =
  (send "ok",
   mkWorld
     (<[rid := mkReqDoc (requestId doc) (userId doc) (transactionId doc) DONE
                 (attempts doc + 1) (createdAt doc) (now e 2)
                 (if weLinkEventFired doc then true else we_ok e)
                 (joinEventFired doc) (Some link) (joinedAt doc)
                 (telegramUserId doc)]> (invite_requests w))
     (<[sha256 link := mkInvDoc link rid (userId doc) (transactionId doc) (now e 1)]>
        (invite_lookup w))
     (queue w)
     (webengage w ++
        (if weLinkEventFired doc then []
         else [mkEvent (userId doc) "pass_paid_community_telegram_link_created"
                 (transactionId doc) link None]))
     (telegram w ++ [link_name doc rid (attempts doc + 1)])
     (writes w ++
        [w_update_req rid
           [f_status PROCESSING; f_attempts (attempts doc + 1); f_updatedAt (now e 0)];
         w_set_inv (sha256 link)
           (mkInvDoc link rid (userId doc) (transactionId doc) (now e 1));
         w_update_req rid [f_status DONE; f_inviteLink link; f_updatedAt (now e 2)]] ++
        (if weLinkEventFired doc then []
         else [w_update_req rid [f_weLinkEventFired (we_ok e)]]))).
Proof.
  intros Hrid Hd Hs Hn Hok Hlink. rewrite processStep_unfold by assumption. rewrite Hd.
  destruct (decide (status doc = DONE)); [contradiction|]. cbv zeta.
  destruct (Z.ltb_spec MAX_ATTEMPTS (attempts doc + 1)); [lia|].
  rewrite (req_update_hit _ _ _ _ Hd). unfold createTelegramLink. rewrite Hok, Hlink.
  cbn [negb]. unfold inv_set, log_write.
  cbn [invite_requests invite_lookup queue webengage telegram writes].
  erewrite req_update_hit by (cbn [invite_requests]; apply lookup_insert_eq).
  cbn [invite_requests invite_lookup queue webengage telegram writes].
  rewrite insert_insert_eq.
  destruct (weLinkEventFired doc) eqn:Hfired; cbn [negb].
  - rewrite !app_nil_r, <- !app_assoc. unfold apply_patch.
    cbn [fold_left apply_field requestId userId transactionId status attempts
         createdAt updatedAt weLinkEventFired joinEventFired inviteLink joinedAt
         telegramUserId].
    rewrite Hfired. reflexivity.
  - unfold fireWebEngage.
    erewrite req_update_hit by (cbn [invite_requests]; apply lookup_insert_eq).
    cbn [invite_requests invite_lookup queue webengage telegram writes].
    rewrite insert_insert_eq, <- !app_assoc. reflexivity.
Qed.

(** The step whose issuer call succeeds without a link in the payload. *)
Lemma processStep_thrown (rid : string) (e : Env) (w : World) (doc : ReqDoc) :
  rid <> "" -> invite_requests w !! rid = Some doc -> status doc <> DONE ->
  (attempts doc + 1 <= MAX_ATTEMPTS)%Z ->
  tg_ok (tg e) = true -> tg_invite_link (tg e) = None ->
  processStep sha256 rid e w =
  (Thrown,
   mkWorld
     (<[rid := mkReqDoc (requestId doc) (userId doc) (transactionId doc) PROCESSING
                 (attempts doc + 1) (createdAt doc) (now e 0) (weLinkEventFired doc)
                 (joinEventFired doc) (inviteLink doc) (joinedAt doc)
                 (telegramUserId doc)]> (invite_requests w))
     (invite_lookup w) (queue w) (webengage w)
     (telegram w ++ [link_name doc rid (attempts doc + 1)])
     (writes w ++
        [w_update_req rid
           [f_status PROCESSING; f_attempts (attempts doc + 1); f_updatedAt (now e 0)]])).
Proof.
  intros Hrid Hd Hs Hn Hok Hlink. rewrite processStep_unfold by assumption. rewrite Hd.
  destruct (decide (status doc = DONE)); [contradiction|]. cbv zeta.
  destruct (Z.ltb_spec MAX_ATTEMPTS (attempts doc + 1)); [lia|].
  rewrite (req_update_hit _ _ _ _ Hd). unfold createTelegramLink. rewrite Hok, Hlink.
  reflexivity.
Qed.

(** Any worker invocation either leaves the world alone or rewrites exactly
    one request document, which was not [DONE]: to [FAILED] with the stored
    count kept when the ceiling is exceeded, otherwise to a non-[FAILED]
    status with the count incremented. *)
Lemma worker_effect (req : WorkerReq) (e : Env) (w : World) :
  snd (worker sha256 req e w) = w \/
  exists rid doc d',
    invite_requests w !! rid = Some doc /\ status doc <> DONE /\
    invite_requests (snd (worker sha256 req e w)) = <[rid := d']> (invite_requests w) /\
    ((MAX_ATTEMPTS < attempts doc + 1 /\ status d' = FAILED /\
      attempts d' = attempts doc)%Z \/
     (attempts doc + 1 <= MAX_ATTEMPTS /\ status d' <> FAILED /\
      attempts d' = attempts doc + 1)%Z).
Proof.
  destruct (truthy_string (hdr_cloudtasks_queuename req)) as [q|] eqn:Hq;
    [|left; unfold worker; rewrite Hq; reflexivity].
  destruct (truthy_string (wb_requestId req)) as [rid|] eqn:Hr;
    [|left; unfold worker; rewrite Hq, Hr; reflexivity].
  assert (Hw : worker sha256 req e w = processStep sha256 rid e w).
  { destruct (truthy_string_inv _ _ Hr) as [_ Hne].
    unfold processStep, worker, taskRequest. cbn [hdr_cloudtasks_queuename wb_requestId].
    rewrite Hq, Hr, (truthy_string_Some rid Hne). reflexivity. }
  apply truthy_string_inv in Hr as [_ Hne]. rewrite Hw.
  destruct (invite_requests w !! rid) as [doc|] eqn:Hd;
    [|left; rewrite processStep_unfold, Hd by assumption; reflexivity].
  destruct (decide (status doc = DONE)) as [Hs|Hs];
    [left; eapply processStep_done; eassumption|].
  right. exists rid, doc.
  destruct (Z.lt_ge_cases MAX_ATTEMPTS (attempts doc + 1)) as [Hn|Hn].
  { rewrite (processStep_exhausted _ e _ _ Hne Hd Hs Hn). eexists.
    split; [exact Hd|]. split; [exact Hs|]. split; [reflexivity|].
    left. split; [exact Hn|]. split; reflexivity. }
  destruct (tg_ok (tg e)) eqn:Hok.
  - destruct (tg_invite_link (tg e)) as [link|] eqn:Hl.
    + rewrite (processStep_issued _ e _ _ _ Hne Hd Hs Hn Hok Hl). eexists.
      split; [exact Hd|]. split; [exact Hs|]. split; [reflexivity|].
      right. split; [exact Hn|]. split; [discriminate | reflexivity].
    + rewrite (processStep_thrown _ e _ _ Hne Hd Hs Hn Hok Hl). eexists.
      split; [exact Hd|]. split; [exact Hs|]. split; [reflexivity|].
      right. split; [exact Hn|]. split; [discriminate | reflexivity].
  - rewrite (processStep_refused _ e _ _ Hne Hd Hs Hn Hok). eexists.
    split; [exact Hd|]. split; [exact Hs|]. split; [reflexivity|].
    right. split; [exact Hn|]. split; [discriminate | reflexivity].
Qed.

(** ** The paths of the webhook *)

Lemma webhook_unfold (body : WebhookBody) (e : Env) (w : World) :
  webhook sha256 body e w =
  match signal_of body with
  | None => (send "ignored", w)
  | Some (link, tgUser) =>
      match invite_lookup w !! sha256 link with
      | None => (send "orphan", w)
      | Some l =>
          match invite_requests w !! lk_requestId l with
          | None => (send "ok", w)
          | Some reqDoc =>
              if joinEventFired reqDoc then (send "ok", w) else
              (send "ok",
               req_update (lk_requestId l)
                 [f_joinEventFired (we_ok e); f_joinedAt (now e 0);
                  f_telegramUserId tgUser; f_updatedAt (now e 1)]
                 (snd (fireWebEngage e
                         (mkEvent (userId reqDoc) "pass_paid_community_telegram_joined"
                            (transactionId reqDoc) link (Some (pretty tgUser))) w)))
          end
      end
  end.
Proof.
  unfold webhook, signal_of. destruct (update_of body) as [upd|]; [|reflexivity].
  destruct (truthy_string (upd_invite_link upd)) as [link|]; [|reflexivity].
  destruct (truthy_number (upd_user_id upd)) as [u|]; [|reflexivity].
  destruct (recognized (upd_status upd)); reflexivity.
Qed.

(** The webhook invocation that posts the "joined" event. *)
Lemma webhook_fired (body : WebhookBody) (e : Env) (w : World) (link : string)
    (tgUser : Z) (l : InvDoc) (doc : ReqDoc) :
  signal_of body = Some (link, tgUser) ->
  invite_lookup w !! sha256 link = Some l ->
  invite_requests w !! lk_requestId l = Some doc ->
  joinEventFired doc = false ->
  webhook sha256 body e w =
  (send "ok",
   mkWorld
     (<[lk_requestId l :=
          mkReqDoc (requestId doc) (userId doc) (transactionId doc) (status doc)
            (attempts doc) (createdAt doc) (now e 1) (weLinkEventFired doc)
            (we_ok e) (inviteLink doc) (Some (now e 0)) (Some tgUser)]>
        (invite_requests w))
     (invite_lookup w) (queue w)
     (webengage w ++
        [mkEvent (userId doc) "pass_paid_community_telegram_joined"
           (transactionId doc) link (Some (pretty tgUser))])
     (telegram w)
     (writes w ++
        [w_update_req (lk_requestId l)
           [f_joinEventFired (we_ok e); f_joinedAt (now e 0);
            f_telegramUserId tgUser; f_updatedAt (now e 1)]])).
Proof.
  intros Hsig Hl Hd Hj. rewrite webhook_unfold, Hsig, Hl, Hd, Hj.
  unfold fireWebEngage. cbn [snd].
  erewrite req_update_hit by (cbn [invite_requests]; exact Hd). reflexivity.
Qed.

(** The webhook invocation for a request whose "joined" flag is set. *)
Lemma webhook_latched (body : WebhookBody) (e : Env) (w : World) (link : string)
    (tgUser : Z) (l : InvDoc) (doc : ReqDoc) :
  signal_of body = Some (link, tgUser) ->
  invite_lookup w !! sha256 link = Some l ->
  invite_requests w !! lk_requestId l = Some doc ->
  joinEventFired doc = true ->
  webhook sha256 body e w = (send "ok", w).
Proof.
  intros Hsig Hl Hd Hj. rewrite webhook_unfold, Hsig, Hl, Hd, Hj. reflexivity.
Qed.

(** Any webhook invocation either leaves the world alone or rewrites one
    request document whose "joined" flag was unset, keeping its status and
    attempt count. *)
Lemma webhook_effect (body : WebhookBody) (e : Env) (w : World) :
  snd (webhook sha256 body e w) = w \/
  exists rid doc d',
    invite_requests w !! rid = Some doc /\ joinEventFired doc = false /\
    invite_requests (snd (webhook sha256 body e w)) = <[rid := d']> (invite_requests w) /\
    status d' = status doc /\ attempts d' = attempts doc.
Proof.
  destruct (signal_of body) as [[link u]|] eqn:Hsig;
    [|left; rewrite webhook_unfold, Hsig; reflexivity].
  destruct (invite_lookup w !! sha256 link) as [l|] eqn:Hl;
    [|left; rewrite webhook_unfold, Hsig, Hl; reflexivity].
  destruct (invite_requests w !! lk_requestId l) as [doc|] eqn:Hd;
    [|left; rewrite webhook_unfold, Hsig, Hl, Hd; reflexivity].
  destruct (joinEventFired doc) eqn:Hj.
  - left. rewrite (webhook_latched _ e _ _ _ _ _ Hsig Hl Hd Hj). reflexivity.
  - right. exists (lk_requestId l), doc. eexists.
    rewrite (webhook_fired _ e _ _ _ _ _ Hsig Hl Hd Hj).
    split; [exact Hd|]. split; [exact Hj|]. split; [reflexivity|].
    split; reflexivity.
Qed.

(** ** The request endpoint *)

Lemma invite_request_accepted (body : CreateBody) (e : Env) (w : World) (uid : string) :
  truthy_string (cb_userId body) = Some uid ->
  invite_request body e w =
  (Sent 200
     (Json [("ok", JBool true); ("status", JStr "queued");
            ("requestId", JStr (randomUUID e))]),
   mkWorld
     (<[randomUUID e :=
          mkReqDoc (randomUUID e) uid (default "" (cb_transactionId body)) QUEUED 0
            (now e 0) (now e 1) false false None None None]> (invite_requests w))
     (invite_lookup w)
     (queue w ++ [mkTask (randomUUID e) 0 None])
     (webengage w) (telegram w)
     (writes w ++
        [w_set_req (randomUUID e)
           (mkReqDoc (randomUUID e) uid (default "" (cb_transactionId body)) QUEUED 0
              (now e 0) (now e 1) false false None None None)])).
Proof. intros Hu. unfold invite_request. rewrite Hu. reflexivity. Qed.

Lemma invite_request_rejected (body : CreateBody) (e : Env) (w : World) :
  truthy_string (cb_userId body) = None ->
  invite_request body e w = (Sent 400 (Json [("error", JStr "Missing userId")]), w).
Proof. intros Hu. unfold invite_request. rewrite Hu. reflexivity. Qed.

(** ** Bounds kept by every handler *)

Lemma world_ok_insert (w w' : World) (rid : string) (d : ReqDoc) :
  world_ok w -> doc_ok d ->
  invite_requests w' = <[rid := d]> (invite_requests w) -> world_ok w'.
Proof.
  unfold world_ok. intros Hw Hd ->. apply map_Forall_insert_2; assumption.
Qed.

Lemma exec_ok (o : Op) (w : World) : world_ok w -> world_ok (exec sha256 o w).
Proof.
  intros Hw. destruct o as [b e|r e|b e]; cbn [exec].
  - destruct (truthy_string (cb_userId b)) as [uid|] eqn:Hu.
    + rewrite (invite_request_accepted _ e w _ Hu). cbn [snd].
      eapply world_ok_insert; [exact Hw| |reflexivity].
      split; [cbn; unfold MAX_ATTEMPTS; lia | discriminate].
    + rewrite (invite_request_rejected _ e w Hu). exact Hw.
  - destruct (worker_effect r e w) as [->|(rid & doc & d' & Hd & _ & Hreq & Hcase)];
      [exact Hw|].
    eapply world_ok_insert; [exact Hw| |exact Hreq].
    destruct (Hw rid doc Hd) as [Hb Hf]. unfold doc_ok, MAX_ATTEMPTS in *.
    destruct Hcase as [(Hn & Hs & Ha)|(Hn & Hs & Ha)];
      (split; [lia | intros HF; first [lia | contradiction]]).
  - destruct (webhook_effect b e w) as [->|(rid & doc & d' & Hd & _ & Hreq & Hs & Ha)];
      [exact Hw|].
    eapply world_ok_insert; [exact Hw| |exact Hreq].
    destruct (Hw rid doc Hd) as [Hb Hf]. unfold doc_ok.
    rewrite Hs, Ha. split; assumption.
Qed.

Lemma run_ok (ops : list Op) (w : World) : world_ok w -> world_ok (run sha256 ops w).
Proof.
  revert w. induction ops as [|o ops IH]; intros w Hw; [exact Hw|].
  cbn [run fold_left]. apply IH, exec_ok, Hw.
Qed.

Lemma empty_world_ok : world_ok empty_world.
Proof. unfold world_ok, empty_world. cbn. apply map_Forall_empty. Qed.

(** ** Sustained refusal by the issuer *)

Lemma processSteps_refused (es : list Env) :
  forall (w : World) (rid : string) (doc : ReqDoc),
    rid <> "" -> invite_requests w !! rid = Some doc -> status doc <> DONE ->
    (0 <= attempts doc <= MAX_ATTEMPTS)%Z -> Forall refused es ->
    exists doc',
      invite_requests (processSteps sha256 rid es w) !! rid = Some doc' /\
      attempts doc' = Z.min (attempts doc + Z.of_nat (length es)) MAX_ATTEMPTS /\
      status doc' =
        (if (MAX_ATTEMPTS <? attempts doc + Z.of_nat (length es))%Z then FAILED
         else match es with [] => status doc | _ => QUEUED end) /\
      length (queue (processSteps sha256 rid es w)) =
        (length (queue w) +
         Z.to_nat (Z.min (Z.of_nat (length es)) (MAX_ATTEMPTS - attempts doc)))%nat.
Proof.
  induction es as [|e es IH]; intros w rid doc Hrid Hd Hs Hb Hall.
  - exists doc. cbn [processSteps length]. split; [exact Hd|].
    split; [lia|]. split.
    + destruct (Z.ltb_spec MAX_ATTEMPTS (attempts doc + Z.of_nat 0)); [lia | reflexivity].
    + rewrite Z.min_l by lia. cbn. lia.
  - apply Forall_cons in Hall as [He Hall]. cbn [processSteps].
    destruct (Z.lt_ge_cases MAX_ATTEMPTS (attempts doc + 1)) as [Hn|Hn].
    + rewrite (processStep_exhausted _ e _ _ Hrid Hd Hs Hn). cbn [snd].
      lazymatch goal with
      | |- context [processSteps sha256 rid es (mkWorld (<[_ := ?d1]> ?m) ?a ?b ?c ?d ?f)] =>
          destruct (IH (mkWorld (<[rid := d1]> m) a b c d f) rid d1 Hrid)
            as (doc' & Hd' & Ha & Hst & Hq);
            [cbn [invite_requests]; apply lookup_insert_eq | discriminate
            | cbn [attempts]; exact Hb | exact Hall |]
      end.
      exists doc'. cbn [attempts status queue] in *. split; [exact Hd'|].
      rewrite Ha, Hst, Hq, length_cons. split; [lia|]. split.
      * destruct (Z.ltb_spec MAX_ATTEMPTS (attempts doc + Z.of_nat (length es)));
          destruct (Z.ltb_spec MAX_ATTEMPTS (attempts doc + Z.of_nat (S (length es))));
          try reflexivity; try lia.
        destruct es; [reflexivity | cbn [length] in *; lia].
      * lia.
    + rewrite (processStep_refused _ e _ _ Hrid Hd Hs Hn He). cbn [snd].
      lazymatch goal with
      | |- context [processSteps sha256 rid es (mkWorld (<[_ := ?d1]> ?m) ?a ?b ?c ?d ?f)] =>
          destruct (IH (mkWorld (<[rid := d1]> m) a b c d f) rid d1 Hrid)
            as (doc' & Hd' & Ha & Hst & Hq);
            [cbn [invite_requests]; apply lookup_insert_eq | discriminate
            | cbn [attempts]; lia | exact Hall |]
      end.
      exists doc'. cbn [attempts status queue] in *. split; [exact Hd'|].
      rewrite Ha, Hst, Hq, length_cons, length_app. cbn [length]. split; [lia|]. split.
      * destruct (Z.ltb_spec MAX_ATTEMPTS (attempts doc + 1 + Z.of_nat (length es)));
          destruct (Z.ltb_spec MAX_ATTEMPTS (attempts doc + Z.of_nat (S (length es))));
          try reflexivity; try lia.
        destruct es; reflexivity.
      * lia.
Qed.

(** C1 (as amended).  A request created by the request endpoint ([QUEUED],
    no attempt yet) whose every worker step is refused by the issuer is
    [FAILED] exactly from the 51st step on: it is [QUEUED] after each of the
    first [MAX_ATTEMPTS] = 50 steps, each of which schedules one retry, and the
    step that computes an attempt number above [MAX_ATTEMPTS] marks it [FAILED],
    keeps the stored count at 50 and schedules nothing, as does every later
    step. *)
Theorem attempt_ceiling (w : World) (rid : string) (doc : ReqDoc) (es : list Env) :
  rid <> "" ->
  invite_requests w !! rid = Some doc ->
  status doc = QUEUED -> attempts doc = 0%Z ->
  Forall refused es ->
  exists doc',
    invite_requests (processSteps sha256 rid es w) !! rid = Some doc' /\
    (status doc' = FAILED <-> (MAX_ATTEMPTS + 1 <= Z.of_nat (length es))%Z) /\
    ((Z.of_nat (length es) <= MAX_ATTEMPTS)%Z -> status doc' = QUEUED) /\
    attempts doc' = Z.min (Z.of_nat (length es)) MAX_ATTEMPTS /\
    length (queue (processSteps sha256 rid es w)) =
      (length (queue w) + Nat.min (length es) (Z.to_nat MAX_ATTEMPTS))%nat.
Proof.
  intros Hrid Hd Hs Ha Hall.
  destruct (processSteps_refused es w rid doc Hrid Hd) as (doc' & Hd' & Ha' & Hs' & Hq);
    [rewrite Hs; discriminate | rewrite Ha; unfold MAX_ATTEMPTS; lia | exact Hall |].
  exists doc'. rewrite Ha, Z.add_0_l in *. split; [exact Hd'|].
  unfold MAX_ATTEMPTS in *.
  destruct (Z.ltb_spec 50 (Z.of_nat (length es))) as [Hlt|Hle].
  - split; [split; [lia | intros _; exact Hs']|]. split; [lia|]. split; lia.
  - assert (Hq' : status doc' = QUEUED).
    { rewrite Hs'. destruct es; [exact Hs | reflexivity]. }
    split; [split; [rewrite Hq'; discriminate | lia]|].
    split; [intros _; exact Hq'|]. split; lia.
Qed.

(** ** Terminal states *)

Lemma processSteps_done (es : list Env) (rid : string) (w : World) :
  status_of rid w = Some DONE -> processSteps sha256 rid es w = w.
Proof.
  intros Hs. induction es as [|e es IH]; [reflexivity|]. cbn [processSteps].
  unfold status_of in Hs. destruct (invite_requests w !! rid) as [doc|] eqn:Hd;
    [|discriminate].
  injection Hs as Hs. rewrite (processStep_done rid e w doc Hd Hs). exact IH.
Qed.

Lemma worker_keeps_done (req : WorkerReq) (e : Env) (w : World) (k : string) :
  status_of k w = Some DONE -> status_of k (snd (worker sha256 req e w)) = Some DONE.
Proof.
  intros Hk.
  destruct (worker_effect req e w) as [->|(rid & doc & d' & Hd & Hs & Hreq & _)];
    [exact Hk|].
  unfold status_of in *. rewrite Hreq. destruct (decide (rid = k)) as [->|Hne].
  - rewrite Hd in Hk. injection Hk as Hk. contradiction.
  - rewrite lookup_insert_ne by exact Hne. exact Hk.
Qed.

Lemma worker_keeps_failed (req : WorkerReq) (e : Env) (w : World) (k : string) :
  world_ok w -> status_of k w = Some FAILED ->
  status_of k (snd (worker sha256 req e w)) = Some FAILED.
Proof.
  intros Hw Hk.
  destruct (worker_effect req e w) as [->|(rid & doc & d' & Hd & Hs & Hreq & Hcase)];
    [exact Hk|].
  unfold status_of in *. rewrite Hreq. destruct (decide (rid = k)) as [->|Hne].
  - rewrite lookup_insert_eq. rewrite Hd in Hk. injection Hk as Hk.
    destruct (Hw k doc Hd) as [_ Hf]. specialize (Hf Hk).
    unfold MAX_ATTEMPTS in *.
    destruct Hcase as [(_ & Hs' & _)|(Hn & _ & _)]; [|lia].
    cbn [fmap option_fmap option_map]. rewrite Hs'. reflexivity.
  - rewrite lookup_insert_ne by exact Hne. exact Hk.
Qed.

Lemma workers_keep_done (ws : list Op) (w : World) (k : string) :
  Forall is_worker ws -> status_of k w = Some DONE ->
  status_of k (run sha256 ws w) = Some DONE.
Proof.
  revert w. induction ws as [|o ws IH]; intros w Hall Hk; [exact Hk|].
  apply Forall_cons in Hall as [Ho Hall]. cbn [run fold_left]. apply IH; [exact Hall|].
  destruct o as [b e|r e|b e]; [destruct Ho | | destruct Ho].
  cbn [exec]. apply worker_keeps_done, Hk.
Qed.

Lemma workers_keep_failed (ws : list Op) (w : World) (k : string) :
  Forall is_worker ws -> world_ok w -> status_of k w = Some FAILED ->
  status_of k (run sha256 ws w) = Some FAILED.
Proof.
  revert w. induction ws as [|o ws IH]; intros w Hall Hw Hk; [exact Hk|].
  apply Forall_cons in Hall as [Ho Hall]. cbn [run fold_left].
  apply IH; [exact Hall | apply exec_ok, Hw |].
  destruct o as [b e|r e|b e]; [destruct Ho | | destruct Ho].
  cbn [exec]. apply worker_keeps_failed; assumption.
Qed.

(** C2.  Terminal states.  Once the stored status of a request is [DONE],
    worker steps for it change nothing at all (so its status stays [DONE] and
    no further [invite_lookup] entry is written), and no worker invocation
    whatsoever changes its status.  In any world the service can reach from
    the empty one, once the stored status is [FAILED] every later worker
    invocation leaves it [FAILED]: it never goes back to [QUEUED] or
    [PROCESSING]. *)
Theorem terminal_states (rid : string) :
  (forall w : World,
     status_of rid w = Some DONE ->
     (forall es : list Env,
        processSteps sha256 rid es w = w /\
        invite_lookup (processSteps sha256 rid es w) = invite_lookup w) /\
     (forall ws : list Op,
        Forall is_worker ws -> status_of rid (run sha256 ws w) = Some DONE)) /\
  (forall ops : list Op,
     status_of rid (run sha256 ops empty_world) = Some FAILED ->
     forall ws : list Op,
       Forall is_worker ws ->
       status_of rid (run sha256 ws (run sha256 ops empty_world)) = Some FAILED).
Proof.
  split.
  - intros w Hs. split.
    + intros es. rewrite (processSteps_done es rid w Hs). split; reflexivity.
    + intros ws Hall. apply workers_keep_done; assumption.
  - intros ops Hs ws Hall. apply workers_keep_failed; [exact Hall | | exact Hs].
    apply run_ok, empty_world_ok.
Qed.

(** C10.  In every world the service reaches from the empty one, by any
    sequence of requests to its three endpoints, the stored [attempts] of
    every request lies between 0 and [MAX_ATTEMPTS] = 50.  The step that finds
    the incremented count above the ceiling writes [status] and [updatedAt]
    only: the stored count stays as it was. *)
Theorem attempts_bounded :
  (forall (ops : list Op) (rid : string) (doc : ReqDoc),
     invite_requests (run sha256 ops empty_world) !! rid = Some doc ->
     (0 <= attempts doc <= MAX_ATTEMPTS)%Z) /\
  (forall (rid : string) (e : Env) (w : World) (doc : ReqDoc),
     rid <> "" -> invite_requests w !! rid = Some doc -> status doc <> DONE ->
     (MAX_ATTEMPTS < attempts doc + 1)%Z ->
     writes (snd (processStep sha256 rid e w)) =
       (writes w ++ [w_update_req rid [f_status FAILED; f_updatedAt (now e 0)]])%list /\
     exists doc',
       invite_requests (snd (processStep sha256 rid e w)) !! rid = Some doc' /\
       status doc' = FAILED /\ attempts doc' = attempts doc).
Proof.
  split.
  - intros ops rid doc Hd.
    exact (proj1 (run_ok ops empty_world empty_world_ok rid doc Hd)).
  - intros rid e w doc Hrid Hd Hs Hn.
    rewrite (processStep_exhausted rid e w doc Hrid Hd Hs Hn). cbn [snd writes].
    split; [reflexivity|]. eexists. cbn [invite_requests].
    split; [apply lookup_insert_eq|]. split; reflexivity.
Qed.

(** ** The refused issuer call *)

(** C4 (as amended).  When the issuer call of a worker step is answered with
    a refusal (a rate-limit response), the request goes back to [QUEUED] with
    the incremented attempt count kept, and exactly one task is added to the
    queue, for the same request.  With a positive wait-hint the task is
    delayed by the hint: its schedule time is that many seconds ahead.  With
    the hint absent or zero it is delayed by 10 seconds.  With a negative hint
    the call carries the hint and the task gets no schedule time: it is not
    delayed.  For a request with no attempt yet and a hint of 30 this gives
    [QUEUED], one attempt and one task with delay 30. *)
Theorem refused_step_requeues (rid : string) (e : Env) (w : World) (doc : ReqDoc) :
  rid <> "" -> invite_requests w !! rid = Some doc -> status doc <> DONE ->
  (attempts doc + 1 <= MAX_ATTEMPTS)%Z -> refused e ->
  let w' := snd (processStep sha256 rid e w) in
  (exists doc',
     invite_requests w' !! rid = Some doc' /\ status doc' = QUEUED /\
     attempts doc' = (attempts doc + 1)%Z) /\
  (exists t,
     queue w' = (queue w ++ [t])%list /\ task_requestId t = rid /\
     (forall h, tg_retry_after (tg e) = Some h -> (0 < h)%Z ->
        task_delaySec t = h /\
        task_scheduleTime t = Some (dateNow e / 1000 + h)%Z) /\
     (tg_retry_after (tg e) = None \/ tg_retry_after (tg e) = Some 0%Z ->
      task_delaySec t = 10%Z /\
      task_scheduleTime t = Some (dateNow e / 1000 + 10)%Z) /\
     (forall h, tg_retry_after (tg e) = Some h -> (h < 0)%Z ->
        task_delaySec t = h /\ task_scheduleTime t = None) /\
     (tg_retry_after (tg e) = Some 30%Z -> attempts doc = 0%Z ->
      task_delaySec t = 30%Z /\
      (attempts <$> invite_requests w' !! rid) = Some 1%Z /\
      status_of rid w' = Some QUEUED)).
Proof.
  intros Hrid Hd Hs Hn He w'. subst w'.
  rewrite (processStep_refused rid e w doc Hrid Hd Hs Hn He).
  cbn [snd invite_requests queue]. split.
  - eexists. split; [apply lookup_insert_eq|]. split; reflexivity.
  - eexists. split; [reflexivity|].
    cbn [task_requestId task_delaySec task_scheduleTime].
    split; [reflexivity|]. unfold retryAfterOf, truthy_number, status_of.
    cbn [invite_requests]. rewrite lookup_insert_eq. split; [|split; [|split]].
    + intros h -> Hh. destruct (Z.eqb_spec h 0); [lia|].
      destruct (Z.ltb_spec 0 h); [split; reflexivity | lia].
    + intros [->| ->]; split; reflexivity.
    + intros h -> Hh. destruct (Z.eqb_spec h 0); [lia|].
      destruct (Z.ltb_spec 0 h); [lia | split; reflexivity].
    + intros -> ->. repeat split.
Qed.

(** ** Redemption *)

Lemma signal_of_Some (body : WebhookBody) (link : string) (tgUser : Z) :
  signal_of body = Some (link, tgUser) <->
  exists upd,
    update_of body = Some upd /\
    upd_invite_link upd = Some link /\ link <> "" /\
    upd_user_id upd = Some tgUser /\ tgUser <> 0%Z /\
    recognized (upd_status upd) = true.
Proof.
  unfold signal_of. split.
  - destruct (update_of body) as [upd|]; [|discriminate].
    destruct (truthy_string (upd_invite_link upd)) as [l|] eqn:Hl; [|discriminate].
    destruct (truthy_number (upd_user_id upd)) as [u|] eqn:Hu; [|discriminate].
    destruct (recognized (upd_status upd)) eqn:Hr; [|discriminate].
    intros [= <- <-]. apply truthy_string_inv in Hl as [Hl Hl'].
    apply truthy_number_inv in Hu as [Hu Hu']. exists upd. repeat split; assumption.
  - intros (upd & -> & Hl & Hl' & Hu & Hu' & ->). rewrite Hl, Hu.
    rewrite (truthy_string_Some link Hl'). cbn [truthy_number].
    destruct (Z.eqb_spec tgUser 0); [contradiction | reflexivity].
Qed.

Lemma joined_events_snoc (w : World) (evs : list Event) (ev : Event) :
  ev_eventName ev = "pass_paid_community_telegram_joined" ->
  webengage w = (evs ++ [ev])%list ->
  length (filter (fun x => ev_eventName x = "pass_paid_community_telegram_joined")
            (webengage w)) =
  S (length (filter (fun x => ev_eventName x = "pass_paid_community_telegram_joined")
               evs)).
Proof.
  intros Hn ->. rewrite filter_app, length_app, filter_cons_True by exact Hn.
  cbn [filter list_filter length]. lia.
Qed.

(** C5.  Redemption is idempotent.  Deliver the same update twice in a row,
    WebEngage accepting what the first delivery posts: the second delivery
    changes nothing.  When the update is a valid join update for a link whose
    [invite_lookup] entry resolves to a stored request with the "joined" flag
    unset, the first delivery posts the "joined" event and leaves the flag
    set, and the second answers "ok" as a no-op, so exactly one "joined" event
    has been posted in total. *)
Theorem redemption_idempotent (body : WebhookBody) (e1 e2 : Env) (w : World) :
  we_ok e1 = true ->
  let w1 := snd (webhook sha256 body e1 w) in
  let w2 := snd (webhook sha256 body e2 w1) in
  w2 = w1 /\
  (forall (link : string) (tgUser : Z) (l : InvDoc) (doc : ReqDoc),
     signal_of body = Some (link, tgUser) ->
     invite_lookup w !! sha256 link = Some l ->
     invite_requests w !! lk_requestId l = Some doc ->
     joinEventFired doc = false ->
     fst (webhook sha256 body e1 w) = send "ok" /\
     (joinEventFired <$> invite_requests w1 !! lk_requestId l) = Some true /\
     webengage w1 =
       (webengage w ++
          [mkEvent (userId doc) "pass_paid_community_telegram_joined"
             (transactionId doc) link (Some (pretty tgUser))])%list /\
     webhook sha256 body e2 w1 = (send "ok", w1) /\
     joined_events w2 = S (joined_events w)).
Proof.
  intros Hok w1 w2.
  assert (Hfire : forall link tgUser l doc,
             signal_of body = Some (link, tgUser) ->
             invite_lookup w !! sha256 link = Some l ->
             invite_requests w !! lk_requestId l = Some doc ->
             joinEventFired doc = false ->
             webhook sha256 body e2 w1 = (send "ok", w1) /\
             (joinEventFired <$> invite_requests w1 !! lk_requestId l) = Some true).
  { intros link tgUser l doc Hsig Hl Hd Hj. subst w2 w1.
    rewrite (webhook_fired body e1 w link tgUser l doc Hsig Hl Hd Hj). cbn [snd].
    rewrite Hok. set (w1 := mkWorld _ _ _ _ _ _).
    assert (Hd1 : invite_requests w1 !! lk_requestId l =
                  Some (mkReqDoc (requestId doc) (userId doc) (transactionId doc)
                          (status doc) (attempts doc) (createdAt doc) (now e1 1)
                          (weLinkEventFired doc) true (inviteLink doc)
                          (Some (now e1 0)) (Some tgUser))).
    { subst w1. cbn [invite_requests]. apply lookup_insert_eq. }
    split; [|rewrite Hd1; reflexivity].
    eapply webhook_latched; [exact Hsig | exact Hl | exact Hd1 | reflexivity]. }
  split.
  - subst w2.
    destruct (signal_of body) as [[link u]|] eqn:Hsig.
    2:{ assert (H1 : forall e, webhook sha256 body e w = (send "ignored", w))
          by (intros e; rewrite webhook_unfold, Hsig; reflexivity).
        subst w1. rewrite (H1 e1). cbn [snd]. rewrite (H1 e2). reflexivity. }
    destruct (invite_lookup w !! sha256 link) as [l|] eqn:Hl.
    2:{ assert (H1 : forall e, webhook sha256 body e w = (send "orphan", w))
          by (intros e; rewrite webhook_unfold, Hsig, Hl; reflexivity).
        subst w1. rewrite (H1 e1). cbn [snd]. rewrite (H1 e2). reflexivity. }
    destruct (invite_requests w !! lk_requestId l) as [doc|] eqn:Hd.
    2:{ assert (H1 : forall e, webhook sha256 body e w = (send "ok", w))
          by (intros e; rewrite webhook_unfold, Hsig, Hl, Hd; reflexivity).
        subst w1. rewrite (H1 e1). cbn [snd]. rewrite (H1 e2). reflexivity. }
    destruct (joinEventFired doc) eqn:Hj.
    + subst w1. rewrite (webhook_latched body e1 w link u l doc Hsig Hl Hd Hj).
      cbn [snd]. rewrite (webhook_latched body e2 w link u l doc Hsig Hl Hd Hj).
      reflexivity.
    + rewrite (proj1 (Hfire link u l doc eq_refl Hl Hd Hj)). reflexivity.
  - intros link tgUser l doc Hsig Hl Hd Hj.
    destruct (Hfire link tgUser l doc Hsig Hl Hd Hj) as [H2 Hflag].
    assert (Hev : webengage w1 =
                  (webengage w ++
                     [mkEvent (userId doc) "pass_paid_community_telegram_joined"
                        (transactionId doc) link (Some (pretty tgUser))])%list).
    { subst w1. rewrite (webhook_fired body e1 w link tgUser l doc Hsig Hl Hd Hj).
      reflexivity. }
    split; [rewrite (webhook_fired body e1 w link tgUser l doc Hsig Hl Hd Hj);
            reflexivity|].
    split; [exact Hflag|]. split; [exact Hev|]. split; [exact H2|].
    subst w2. rewrite H2. cbn [snd]. unfold joined_events.
    eapply joined_events_snoc; [|exact Hev]. reflexivity.
Qed.

(** C9 (as amended).  The Telegram user recorded on a request is final once
    it was recorded together with a delivered "joined" event: whenever the
    "joined" flag of a request is set, no sequence of webhook deliveries
    changes its document; in particular, after the delivery that posts the
    event with WebEngage accepting it, the recorded user stays the one of that
    delivery. *)
Theorem redeemer_final_once_joined :
  (forall (w : World) (rid : string) (doc : ReqDoc),
     invite_requests w !! rid = Some doc -> joinEventFired doc = true ->
     forall sigs : list (WebhookBody * Env),
       invite_requests (webhooks sha256 sigs w) !! rid = Some doc) /\
  (forall (body : WebhookBody) (e : Env) (w : World) (link : string) (tgUser : Z)
          (l : InvDoc) (doc : ReqDoc),
     signal_of body = Some (link, tgUser) ->
     invite_lookup w !! sha256 link = Some l ->
     invite_requests w !! lk_requestId l = Some doc ->
     joinEventFired doc = false -> we_ok e = true ->
     forall sigs : list (WebhookBody * Env),
       redeemer_of (lk_requestId l)
         (webhooks sha256 sigs (snd (webhook sha256 body e w))) = Some tgUser).
Proof.
  assert (Hlatch : forall (sigs : list (WebhookBody * Env)) (w : World) (rid : string)
                          (doc : ReqDoc),
             invite_requests w !! rid = Some doc -> joinEventFired doc = true ->
             invite_requests (webhooks sha256 sigs w) !! rid = Some doc).
  { induction sigs as [|[b e] sigs IH]; intros w rid doc Hd Hj; [exact Hd|].
    cbn [webhooks]. apply IH; [|exact Hj].
    destruct (webhook_effect b e w) as [->|(k & d & d' & Hk & Hkj & Hreq & _)];
      [exact Hd|].
    rewrite Hreq. destruct (decide (k = rid)) as [->|Hne].
    - rewrite Hd in Hk. injection Hk as <-. congruence.
    - rewrite lookup_insert_ne by exact Hne. exact Hd. }
  split.
  - intros w rid doc Hd Hj sigs. apply Hlatch; assumption.
  - intros body e w link tgUser l doc Hsig Hl Hd Hj Hok sigs.
    rewrite (webhook_fired body e w link tgUser l doc Hsig Hl Hd Hj). cbn [snd].
    unfold redeemer_of.
    lazymatch goal with
    | |- context [webhooks sha256 sigs (mkWorld (<[?k := ?d1]> ?m) ?a ?b ?c ?d ?f)] =>
        assert (H1 : invite_requests
                       (webhooks sha256 sigs (mkWorld (<[k := d1]> m) a b c d f)) !! k
                     = Some d1)
          by (apply Hlatch;
              [cbn [invite_requests]; apply lookup_insert_eq
              | cbn [joinEventFired]; exact Hok])
    end.
    rewrite H1. reflexivity.
Qed.

(** C8.  A webhook delivery with no member update, or whose update has no
    invite link, no user id or a status other than member, administrator or
    creator, is answered "ignored" and leaves the world untouched; a valid
    update whose link has no [invite_lookup] entry is answered "orphan" and
    leaves the world untouched. *)
Theorem ignored_and_orphan_signals (body : WebhookBody) (e : Env) (w : World) :
  (update_of body = None -> webhook sha256 body e w = (send "ignored", w)) /\
  (forall upd : ChatMemberUpdated,
     update_of body = Some upd ->
     truthy_string (upd_invite_link upd) = None \/
     truthy_number (upd_user_id upd) = None \/
     recognized (upd_status upd) = false ->
     webhook sha256 body e w = (send "ignored", w)) /\
  (forall (link : string) (tgUser : Z),
     signal_of body = Some (link, tgUser) ->
     invite_lookup w !! sha256 link = None ->
     webhook sha256 body e w = (send "orphan", w)).
Proof.
  split; [|split].
  - intros Hu. unfold webhook. rewrite Hu. reflexivity.
  - intros upd Hu Hbad. unfold webhook. rewrite Hu.
    destruct (truthy_string (upd_invite_link upd)) as [x|];
      destruct (truthy_number (upd_user_id upd)) as [y|];
      destruct (recognized (upd_status upd)); try reflexivity.
    destruct Hbad as [?|[?|?]]; discriminate.
  - intros link tgUser Hsig Hl. rewrite webhook_unfold, Hsig, Hl. reflexivity.
Qed.

(** ** Issuing and finding a link *)

(** C6.  Round trip through the lookup collection.  After a worker step for
    request [rid] in which Telegram issues [link], reading [invite_lookup] at
    [sha256 link] yields an entry whose [requestId] is [rid]; and the webhook,
    given a valid join update carrying [link], resolves it to that request and
    records the joining user on it. *)
Theorem issued_link_roundtrip (rid : string) (e : Env) (w : World) (doc : ReqDoc)
    (link : string) :
  rid <> "" -> invite_requests w !! rid = Some doc -> status doc <> DONE ->
  (attempts doc + 1 <= MAX_ATTEMPTS)%Z ->
  tg_ok (tg e) = true -> tg_invite_link (tg e) = Some link ->
  let w' := snd (processStep sha256 rid e w) in
  (exists l,
     invite_lookup w' !! sha256 link = Some l /\
     lk_requestId l = rid /\ lk_inviteLink l = link) /\
  status_of rid w' = Some DONE /\
  (invite_requests w' !! rid ≫= inviteLink) = Some link /\
  (forall (body : WebhookBody) (e2 : Env) (tgUser : Z),
     signal_of body = Some (link, tgUser) -> joinEventFired doc = false ->
     redeemer_of rid (snd (webhook sha256 body e2 w')) = Some tgUser).
Proof.
  intros Hrid Hd Hs Hn Hok Hlink w'. subst w'.
  rewrite (processStep_issued rid e w doc link Hrid Hd Hs Hn Hok Hlink). cbn [snd].
  set (w' := mkWorld _ _ _ _ _ _).
  assert (Hl' : invite_lookup w' !! sha256 link =
                Some (mkInvDoc link rid (userId doc) (transactionId doc) (now e 1))).
  { subst w'. cbn [invite_lookup]. apply lookup_insert_eq. }
  split; [eexists; split; [exact Hl' | split; reflexivity]|].
  unfold status_of, redeemer_of.
  split; [subst w'; cbn [invite_requests]; rewrite lookup_insert_eq; reflexivity|].
  split; [subst w'; cbn [invite_requests]; rewrite lookup_insert_eq; reflexivity|].
  intros body e2 tgUser Hsig Hj.
  erewrite webhook_fired;
    [ | exact Hsig | exact Hl'
      | subst w'; cbn [invite_requests lk_requestId]; apply lookup_insert_eq
      | cbn [joinEventFired]; exact Hj ].
  cbn [snd invite_requests lk_requestId]. rewrite lookup_insert_eq. reflexivity.
Qed.

(** ** Creating a request *)


End Properties.

(** * Concrete runs *)

Lemma world_A_doc : invite_requests world_A !! "req-1" = Some doc_A.
Proof. vm_compute. reflexivity. Qed.

Lemma replicate_refused (n : nat) : Forall refused (replicate n env_refused30).
Proof. apply Forall_replicate. reflexivity. Qed.

(** C1, counterexample.  After exactly [MAX_ATTEMPTS] = 50 refused worker
    steps the fresh request "req-1" is [QUEUED], not [FAILED]; it is [FAILED]
    after the 51st. *)
Lemma attempt_ceiling_counterexample :
  ~ (status_of "req-1"
       (processSteps sample_sha256 "req-1"
          (replicate (Z.to_nat MAX_ATTEMPTS) env_refused30) world_A) = Some FAILED) /\
  status_of "req-1"
    (processSteps sample_sha256 "req-1"
       (replicate (Z.to_nat MAX_ATTEMPTS) env_refused30) world_A) = Some QUEUED /\
  status_of "req-1"
    (processSteps sample_sha256 "req-1"
       (replicate (S (Z.to_nat MAX_ATTEMPTS)) env_refused30) world_A) = Some FAILED.
Proof.
  assert (H50 : status_of "req-1"
                  (processSteps sample_sha256 "req-1"
                     (replicate (Z.to_nat MAX_ATTEMPTS) env_refused30) world_A)
                = Some QUEUED) by (vm_compute; reflexivity).
  split; [rewrite H50; discriminate|]. split; [exact H50|]. vm_compute. reflexivity.
Qed.

Lemma attempt_ceiling_witness :
  exists doc',
    invite_requests
      (processSteps sample_sha256 "req-1" (replicate 51 env_refused30) world_A)
      !! "req-1" = Some doc' /\
    status doc' = FAILED /\ attempts doc' = 50%Z /\
    length (queue (processSteps sample_sha256 "req-1" (replicate 51 env_refused30)
                     world_A)) = 51%nat.
Proof.
  destruct (attempt_ceiling sample_sha256 world_A "req-1" doc_A
              (replicate 51 env_refused30))
    as (doc' & Hd & Hs & _ & Ha & Hq).
  - discriminate.
  - vm_compute. reflexivity.
  - reflexivity.
  - reflexivity.
  - apply replicate_refused.
  - exists doc'. split; [exact Hd|]. split; [|split].
    + apply Hs. rewrite length_replicate. vm_compute. discriminate.
    + rewrite Ha, length_replicate. reflexivity.
    + rewrite Hq, length_replicate. reflexivity.
Defined.

Lemma terminal_states_witness :
  processSteps sample_sha256 "req-1" [env_issued; env_refused30] world_C = world_C /\
  status_of "req-1"
    (run sample_sha256 [op_worker (taskRequest "req-1") env_refused30] world_C)
    = Some DONE /\
  status_of "req-1"
    (run sample_sha256
       [op_worker (taskRequest "req-1") env_issued;
        op_worker (taskRequest "req-1") env_refused30]
       (run sample_sha256 ops_exhausted empty_world)) = Some FAILED.
Proof.
  destruct (terminal_states sample_sha256 "req-1") as [Hdone Hfailed].
  assert (HC : status_of "req-1" world_C = Some DONE) by (vm_compute; reflexivity).
  destruct (Hdone world_C HC) as [Hsteps Hany].
  split; [exact (proj1 (Hsteps [env_issued; env_refused30]))|].
  split; [apply Hany; repeat constructor|].
  apply Hfailed; [vm_compute; reflexivity | repeat constructor].
Defined.

Lemma attempts_bounded_witness :
  (invite_requests (run sample_sha256 ops_exhausted empty_world) !! "req-1"
     ≫= fun d => Some (attempts d)) = Some 50%Z /\
  (0 <= 50 <= MAX_ATTEMPTS)%Z /\
  writes (snd (processStep sample_sha256 "req-1" env_refused30
                 (processSteps sample_sha256 "req-1" (replicate 50 env_refused30)
                    world_A))) =
    (writes (processSteps sample_sha256 "req-1" (replicate 50 env_refused30) world_A)
       ++ [w_update_req "req-1" [f_status FAILED; f_updatedAt "t1#0"]])%list.
Proof.
  destruct (attempts_bounded sample_sha256) as [Hbound Hfail].
  split; [vm_compute; reflexivity|]. split.
  - apply (Hbound ops_exhausted "req-1"
             (mkReqDoc "req-1" "u1" "txn1" FAILED 50 "t0#0" "t1#0" false false
                None None None)).
    vm_compute. reflexivity.
  - apply (Hfail "req-1" env_refused30
             (processSteps sample_sha256 "req-1" (replicate 50 env_refused30) world_A)
             (mkReqDoc "req-1" "u1" "txn1" QUEUED 50 "t0#0" "t1#0" false false
                None None None)).
    + discriminate.
    + vm_compute. reflexivity.
    + discriminate.
    + vm_compute. reflexivity.
Defined.

(** C3, the behaviour at the failing input.  A worker step on the fresh
    request "req-1" that Telegram refuses sends two updates: the one to
    [PROCESSING], stamped with the time read then, and the revert to [QUEUED],
    whose only key is [status].  The revert does not refresh [updatedAt]: the
    stored value stays the time of the earlier update. *)
Theorem refused_step_leaves_updatedAt :
  let w' := snd (processStep sample_sha256 "req-1" env_refused30 world_A) in
  writes w' =
    (writes world_A ++
       [w_update_req "req-1" [f_status PROCESSING; f_attempts 1; f_updatedAt "t1#0"];
        w_update_req "req-1" [f_status QUEUED]])%list /\
  refreshes (w_update_req "req-1" [f_status QUEUED]) = false /\
  forallb refreshes (writes w') = false /\
  status_of "req-1" w' = Some QUEUED /\
  (invite_requests w' !! "req-1" ≫= fun d => Some (updatedAt d)) = Some "t1#0".
Proof. vm_compute. repeat split. Qed.

(** C4, counterexample.  A refusal carrying the wait-hint 0 does not queue a
    task with delay 0: the task has delay 10.  A refusal carrying the negative
    wait-hint -5 queues a task with that delay argument and no schedule time:
    the step is not delayed. *)
Lemma wait_hint_counterexample :
  let e0 := sample_env "t1" (tg_rate_limited (Some 0%Z)) true in
  let w0 := snd (processStep sample_sha256 "req-1" e0 world_A) in
  let e5 := sample_env "t1" (tg_rate_limited (Some (-5)%Z)) true in
  let w5 := snd (processStep sample_sha256 "req-1" e5 world_A) in
  tg_retry_after (tg e0) = Some 0%Z /\
  queue w0 = (queue world_A ++ [mkTask "req-1" 10 (Some 1700000010%Z)])%list /\
  ~ (exists t, queue w0 = (queue world_A ++ [t])%list /\ task_delaySec t = 0%Z) /\
  tg_retry_after (tg e5) = Some (-5)%Z /\
  queue w5 = (queue world_A ++ [mkTask "req-1" (-5) None])%list /\
  ~ (exists t, queue w5 = (queue world_A ++ [t])%list /\ is_Some (task_scheduleTime t)).
Proof.
  cbv zeta.
  assert (Hq : queue (snd (processStep sample_sha256 "req-1"
                             (sample_env "t1" (tg_rate_limited (Some 0%Z)) true)
                             world_A))
               = (queue world_A ++ [mkTask "req-1" 10 (Some 1700000010%Z)])%list)
    by (vm_compute; reflexivity).
  assert (Hq5 : queue (snd (processStep sample_sha256 "req-1"
                              (sample_env "t1" (tg_rate_limited (Some (-5)%Z)) true)
                              world_A))
                = (queue world_A ++ [mkTask "req-1" (-5) None])%list)
    by (vm_compute; reflexivity).
  split; [reflexivity|]. split; [exact Hq|]. split.
  { intros (t & Ht & Hz). rewrite Hq in Ht. apply app_inv_head in Ht.
    injection Ht as <-. discriminate Hz. }
  split; [reflexivity|]. split; [exact Hq5|].
  intros (t & Ht & [x Hx]). rewrite Hq5 in Ht. apply app_inv_head in Ht.
  injection Ht as <-. discriminate Hx.
Qed.

Lemma refused_step_requeues_witness :
  let w' := snd (processStep sample_sha256 "req-1" env_refused30 world_A) in
  status_of "req-1" w' = Some QUEUED /\
  (attempts <$> invite_requests w' !! "req-1") = Some 1%Z /\
  exists t, queue w' = (queue world_A ++ [t])%list /\ task_delaySec t = 30%Z.
Proof.
  cbv zeta.
  destruct (refused_step_requeues sample_sha256 "req-1" env_refused30 world_A doc_A)
    as [_ (t & Hq & _ & _ & _ & _ & H30)].
  - discriminate.
  - vm_compute. reflexivity.
  - discriminate.
  - vm_compute. discriminate.
  - reflexivity.
  - destruct H30 as (Hd & Ha & Hs); [reflexivity | reflexivity |].
    split; [exact Hs|]. split; [exact Ha|]. exists t. split; [exact Hq | exact Hd].
Defined.

Lemma world_C_entry : invite_lookup world_C !! sample_sha256 "X" = Some entry_C.
Proof. vm_compute. reflexivity. Qed.

Lemma world_C_doc : invite_requests world_C !! "req-1" = Some doc_C.
Proof. vm_compute. reflexivity. Qed.

Lemma redemption_idempotent_witness :
  let body := join_signal "X" "member" 99 in
  let w1 := snd (webhook sample_sha256 body (sample_env "t2" (tg_issued "X") true) world_C) in
  (joinEventFired <$> invite_requests w1 !! "req-1") = Some true /\
  webhook sample_sha256 body (sample_env "t3" (tg_issued "X") true) w1 = (send "ok", w1) /\
  joined_events
    (snd (webhook sample_sha256 body (sample_env "t3" (tg_issued "X") true) w1)) = 1%nat.
Proof.
  cbv zeta.
  destruct (redemption_idempotent sample_sha256 (join_signal "X" "member" 99)
              (sample_env "t2" (tg_issued "X") true)
              (sample_env "t3" (tg_issued "X") true) world_C)
    as [_ Hfire]; [reflexivity|].
  destruct (Hfire "X" 99%Z entry_C doc_C) as (_ & Hj & _ & H2 & Hn).
  - reflexivity.
  - exact world_C_entry.
  - exact world_C_doc.
  - reflexivity.
  - split; [exact Hj|]. split; [exact H2|]. rewrite Hn. vm_compute. reflexivity.
Defined.

(** C9, counterexample.  When WebEngage rejects the "joined" event of a first
    delivery, the user of that delivery (99) is recorded with the flag left
    unset, and a second valid delivery for the same link with another user
    (100) overwrites it. *)
Lemma redeemer_overwritten_counterexample :
  let w1 :=
    snd (webhook sample_sha256 (join_signal "X" "member" 99)
           (sample_env "t2" (tg_issued "X") false) world_C) in
  let w2 :=
    snd (webhook sample_sha256 (join_signal "X" "member" 100)
           (sample_env "t3" (tg_issued "X") true) w1) in
  redeemer_of "req-1" world_C = None /\
  redeemer_of "req-1" w1 = Some 99%Z /\
  redeemer_of "req-1" w2 = Some 100%Z.
Proof. vm_compute. repeat split. Qed.

Lemma redeemer_final_once_joined_witness :
  let w1 :=
    snd (webhook sample_sha256 (join_signal "X" "member" 99)
           (sample_env "t2" (tg_issued "X") true) world_C) in
  redeemer_of "req-1"
    (webhooks sample_sha256
       [(join_signal "X" "member" 100, sample_env "t3" (tg_issued "X") true);
        (join_signal "X" "creator" 101, sample_env "t4" (tg_issued "X") false)] w1)
  = Some 99%Z.
Proof.
  cbv zeta.
  apply (proj2 (redeemer_final_once_joined sample_sha256)
           (join_signal "X" "member" 99) (sample_env "t2" (tg_issued "X") true)
           world_C "X" 99%Z entry_C doc_C).
  - reflexivity.
  - exact world_C_entry.
  - exact world_C_doc.
  - reflexivity.
  - reflexivity.
Defined.

Lemma ignored_and_orphan_signals_witness :
  let e := sample_env "t2" (tg_issued "X") true in
  webhook sample_sha256 (mkWebhookBody None None) e world_C = (send "ignored", world_C) /\
  webhook sample_sha256 (join_signal "X" "left" 99) e world_C = (send "ignored", world_C) /\
  webhook sample_sha256 (join_signal "Y" "member" 99) e world_C = (send "orphan", world_C).
Proof.
  cbv zeta. split; [|split].
  - apply (proj1 (ignored_and_orphan_signals sample_sha256 (mkWebhookBody None None)
                    (sample_env "t2" (tg_issued "X") true) world_C)).
    reflexivity.
  - apply (proj1 (proj2 (ignored_and_orphan_signals sample_sha256
                           (join_signal "X" "left" 99)
                           (sample_env "t2" (tg_issued "X") true) world_C))
             (mkUpd (Some "X") (Some "left") (Some 99%Z))).
    + reflexivity.
    + right. right. reflexivity.
  - apply (proj2 (proj2 (ignored_and_orphan_signals sample_sha256
                           (join_signal "Y" "member" 99)
                           (sample_env "t2" (tg_issued "X") true) world_C))
             "Y" 99%Z).
    + reflexivity.
    + vm_compute. reflexivity.
Defined.

Lemma issued_link_roundtrip_witness :
  (exists l, invite_lookup world_C !! sample_sha256 "X" = Some l /\
             lk_requestId l = "req-1" /\ lk_inviteLink l = "X") /\
  status_of "req-1" world_C = Some DONE /\
  redeemer_of "req-1"
    (snd (webhook sample_sha256 (join_signal "X" "member" 99)
            (sample_env "t2" (tg_issued "X") true) world_C)) = Some 99%Z.
Proof.
  destruct (issued_link_roundtrip sample_sha256 "req-1" env_issued world_A doc_A "X")
    as (Hl & Hs & _ & Hw).
  - discriminate.
  - exact world_A_doc.
  - discriminate.
  - vm_compute. discriminate.
  - reflexivity.
  - reflexivity.
  - split; [exact Hl|]. split; [exact Hs|]. apply Hw; reflexivity.
Defined.



(** * Further properties of the handlers *)

Section Handlers.

Context (sha256 : string -> string).

(** ** Case analysis of one operation *)

Lemma worker_paths (req : WorkerReq) (e : Env) (w : World) :
  (snd (worker sha256 req e w) = w /\
   (fst (worker sha256 req e w) = Sent 403 (Text "Forbidden") \/
    fst (worker sha256 req e w) = Sent 400 (Text "Missing requestId") \/
    fst (worker sha256 req e w) = send "ok")) \/
  exists rid doc,
    rid <> "" /\ invite_requests w !! rid = Some doc /\ status doc <> DONE /\
    worker sha256 req e w = processStep sha256 rid e w.
Proof.
  destruct (truthy_string (hdr_cloudtasks_queuename req)) as [q|] eqn:Hq;
    [|left; unfold worker; rewrite Hq; split; [|left]; reflexivity].
  destruct (truthy_string (wb_requestId req)) as [rid|] eqn:Hr;
    [|left; unfold worker; rewrite Hq, Hr; split; [|right; left]; reflexivity].
  destruct (truthy_string_inv _ _ Hr) as [_ Hne].
  assert (Hw : worker sha256 req e w = processStep sha256 rid e w).
  { unfold processStep, worker, taskRequest. cbn [hdr_cloudtasks_queuename wb_requestId].
    rewrite Hq, Hr, (truthy_string_Some rid Hne). reflexivity. }
  rewrite Hw.
  destruct (invite_requests w !! rid) as [doc|] eqn:Hd.
  2:{ left. rewrite processStep_unfold, Hd by assumption.
      split; [|right; right]; reflexivity. }
  destruct (decide (status doc = DONE)) as [Hs|Hs].
  { left. rewrite processStep_unfold, Hd by assumption.
    destruct (decide (status doc = DONE)); [|contradiction].
    split; [|right; right]; reflexivity. }
  right. exists rid, doc. repeat split; assumption.
Qed.

Lemma webhook_paths (body : WebhookBody) (e : Env) (w : World) :
  (snd (webhook sha256 body e w) = w /\
   exists t, fst (webhook sha256 body e w) = send t /\
             (t = "ignored" \/ t = "orphan" \/ t = "ok")) \/
  exists link tgUser l doc,
    signal_of body = Some (link, tgUser) /\
    invite_lookup w !! sha256 link = Some l /\
    invite_requests w !! lk_requestId l = Some doc /\
    joinEventFired doc = false.
Proof.
  destruct (signal_of body) as [[link u]|] eqn:Hsig.
  2:{ left. rewrite webhook_unfold, Hsig. split; [reflexivity|].
      exists "ignored". split; [reflexivity | left; reflexivity]. }
  destruct (invite_lookup w !! sha256 link) as [l|] eqn:Hl.
  2:{ left. rewrite webhook_unfold, Hsig, Hl. split; [reflexivity|].
      exists "orphan". split; [reflexivity | right; left; reflexivity]. }
  destruct (invite_requests w !! lk_requestId l) as [doc|] eqn:Hd.
  2:{ left. rewrite webhook_unfold, Hsig, Hl, Hd. split; [reflexivity|].
      exists "ok". split; [reflexivity | right; right; reflexivity]. }
  destruct (joinEventFired doc) eqn:Hj.
  - left. rewrite (webhook_latched sha256 body e w link u l doc Hsig Hl Hd Hj).
    split; [reflexivity|]. exists "ok". split; [reflexivity | right; right; reflexivity].
  - right. exists link, u, l, doc. repeat split; assumption.
Qed.

(** Split a worker step on a live document into its four outcomes, each with
    the world it produces written out. *)
Ltac step_paths rid e w doc Hrid Hd Hs :=
  let Hn := fresh "Hn" in
  let Hok := fresh "Hok" in
  let Hlink := fresh "Hlink" in
  let link := fresh "link" in
  destruct (Z.lt_ge_cases MAX_ATTEMPTS (attempts doc + 1)) as [Hn|Hn];
  [ rewrite (processStep_exhausted sha256 rid e w doc Hrid Hd Hs Hn)
  | destruct (tg_ok (tg e)) eqn:Hok;
    [ destruct (tg_invite_link (tg e)) as [link|] eqn:Hlink;
      [ rewrite (processStep_issued sha256 rid e w doc link Hrid Hd Hs Hn Hok Hlink)
      | rewrite (processStep_thrown sha256 rid e w doc Hrid Hd Hs Hn Hok Hlink) ]
    | rewrite (processStep_refused sha256 rid e w doc Hrid Hd Hs Hn Hok) ] ].

(** ** Documents over time *)

Lemma evolves_refl (d : ReqDoc) : evolves d d.
Proof. unfold evolves. repeat split; try reflexivity; try lia; auto. Qed.

Lemma evolves_trans (d1 d2 d3 : ReqDoc) : evolves d1 d2 -> evolves d2 d3 -> evolves d1 d3.
Proof.
  unfold evolves.
  intros (Hr & Hu & Ht & Hc & Ha & Hw & Hj & Hd) (Hr' & Hu' & Ht' & Hc' & Ha' & Hw' & Hj' & Hd').
  split; [congruence|]. split; [congruence|]. split; [congruence|].
  split; [congruence|]. split; [lia|]. split; [auto|]. split.
  - intros Hx. destruct (Hj Hx) as (H1 & H2 & H3). destruct (Hj' H1) as (H4 & H5 & H6).
    split; [exact H4|]. split; congruence.
  - intros Hx. destruct (Hd Hx) as (H1 & H2 & H3). destruct (Hd' H1) as (H4 & H5 & H6).
    split; [exact H4|]. split; congruence.
Qed.

Ltac evolves_here :=
  unfold evolves;
  cbn [requestId userId transactionId status attempts createdAt updatedAt
       weLinkEventFired joinEventFired inviteLink joinedAt telegramUserId];
  repeat split; try reflexivity; try lia; try contradiction; try congruence;
  try (intros ->; reflexivity).

Ltac at_key rid0 rid Hd Hd0 :=
  cbn [snd invite_requests];
  let Heq := fresh "Heq" in
  destruct (decide (rid0 = rid)) as [Heq|?];
  [ rewrite ?Heq in *; rewrite lookup_insert_eq; rewrite Hd0 in Hd; injection Hd as <-;
    eexists; split; [reflexivity|]
  | rewrite lookup_insert_ne by assumption;
    eexists; split; [exact Hd | apply evolves_refl] ].

Lemma exec_evolves (rid : string) (o : Op) (w : World) (doc : ReqDoc) :
  spares rid o -> invite_requests w !! rid = Some doc ->
  exists doc', invite_requests (exec sha256 o w) !! rid = Some doc' /\ evolves doc doc'.
Proof.
  intros Hsp Hd. destruct o as [b e|r e|b e]; cbn [exec spares] in *.
  - destruct (truthy_string (cb_userId b)) as [uid|] eqn:Hu.
    + rewrite (invite_request_accepted b e w uid Hu). cbn [snd invite_requests].
      rewrite lookup_insert_ne by exact Hsp. exists doc. split; [exact Hd | apply evolves_refl].
    + rewrite (invite_request_rejected b e w Hu). exists doc.
      split; [exact Hd | apply evolves_refl].
  - destruct (worker_paths r e w) as [[-> _]|(rid0 & doc0 & Hrid & Hd0 & Hs & ->)];
      [exists doc; split; [exact Hd | apply evolves_refl]|].
    step_paths rid0 e w doc0 Hrid Hd0 Hs; at_key rid0 rid Hd Hd0; evolves_here.
  - destruct (webhook_paths b e w) as [[-> _]|(link & u & l & doc0 & Hsig & Hl & Hd0 & Hj)];
      [exists doc; split; [exact Hd | apply evolves_refl]|].
    rewrite (webhook_fired sha256 b e w link u l doc0 Hsig Hl Hd0 Hj).
    at_key (lk_requestId l) rid Hd Hd0; evolves_here.
Qed.

Lemma run_evolves (rid : string) (ops : list Op) :
  forall (w : World) (doc : ReqDoc),
    Forall (spares rid) ops -> invite_requests w !! rid = Some doc ->
    exists doc', invite_requests (run sha256 ops w) !! rid = Some doc' /\ evolves doc doc'.
Proof.
  induction ops as [|o ops IH]; intros w doc Hall Hd.
  - exists doc. split; [exact Hd | apply evolves_refl].
  - apply Forall_cons in Hall as [Ho Hall]. cbn [run fold_left].
    destruct (exec_evolves rid o w doc Ho Hd) as (d1 & Hd1 & He1).
    destruct (IH (exec sha256 o w) d1 Hall Hd1) as (d2 & Hd2 & He2).
    exists d2. split; [exact Hd2 | eapply evolves_trans; eassumption].
Qed.

(** X1.  A stored request is never deleted and its inputs never change:
    whatever the service is sent afterwards (short of a request call that
    draws the same UUID again), the document is still there with the same
    [requestId], [userId], [transactionId] and [createdAt], and its attempt
    count has not decreased. *)
Theorem request_inputs_immutable (rid : string) (ops : list Op) (w : World)
    (doc : ReqDoc) :
  Forall (spares rid) ops -> invite_requests w !! rid = Some doc ->
  exists doc',
    invite_requests (run sha256 ops w) !! rid = Some doc' /\
    requestId doc' = requestId doc /\ userId doc' = userId doc /\
    transactionId doc' = transactionId doc /\ createdAt doc' = createdAt doc /\
    (attempts doc <= attempts doc')%Z.
Proof.
  intros Hall Hd.
  destruct (run_evolves rid ops w doc Hall Hd) as (d' & Hd' & Hr & Hu & Ht & Hc & Ha & _).
  exists d'. repeat split; assumption.
Qed.

(** X2.  The flags and the terminal state are one-way.  Across any later
    operations (short of a request call that draws the same UUID again):
    a set [weLinkEventFired] stays set; a set [joinEventFired] stays set and
    the recorded Telegram user and join time stay as they are; and a [DONE]
    request stays [DONE] with the same invite link and attempt count. *)
Theorem latches_hold (rid : string) (ops : list Op) (w : World) (doc : ReqDoc) :
  Forall (spares rid) ops -> invite_requests w !! rid = Some doc ->
  exists doc',
    invite_requests (run sha256 ops w) !! rid = Some doc' /\
    (weLinkEventFired doc = true -> weLinkEventFired doc' = true) /\
    (joinEventFired doc = true ->
     joinEventFired doc' = true /\ telegramUserId doc' = telegramUserId doc /\
     joinedAt doc' = joinedAt doc) /\
    (status doc = DONE ->
     status doc' = DONE /\ inviteLink doc' = inviteLink doc /\
     attempts doc' = attempts doc).
Proof.
  intros Hall Hd.
  destruct (run_evolves rid ops w doc Hall Hd)
    as (d' & Hd' & _ & _ & _ & _ & _ & Hw & Hj & Hdone).
  exists d'. split; [exact Hd'|]. split; [exact Hw|]. split; [exact Hj | exact Hdone].
Qed.

(** ** Issuer calls *)

Lemma processStep_counts (rid : string) (e : Env) (w : World) (doc : ReqDoc) :
  rid <> "" -> invite_requests w !! rid = Some doc ->
  exists doc',
    invite_requests (snd (processStep sha256 rid e w)) !! rid = Some doc' /\
    (attempts doc <= attempts doc' <= attempts doc + 1)%Z /\
    (attempts doc <= MAX_ATTEMPTS -> attempts doc' <= MAX_ATTEMPTS)%Z /\
    Z.of_nat (length (telegram (snd (processStep sha256 rid e w)))) =
      (Z.of_nat (length (telegram w)) + (attempts doc' - attempts doc))%Z.
Proof.
  intros Hrid Hd. destruct (decide (status doc = DONE)) as [Hs|Hs].
  { rewrite (processStep_done sha256 rid e w doc Hd Hs). exists doc.
    split; [exact Hd|]. repeat split; lia. }
  step_paths rid e w doc Hrid Hd Hs; cbn [snd invite_requests telegram];
    rewrite lookup_insert_eq; eexists; (split; [reflexivity|]);
    cbn [attempts]; rewrite ?length_app; cbn [length]; repeat split; lia.
Qed.

(** X3.  The attempt count is the number of Telegram calls.  Over any run of
    worker steps for one request, whatever Telegram answers, the stored
    [attempts] grows by exactly the number of [createChatInviteLink] calls
    made, by at most one per step; so a request stored with [a] attempts,
    [a] at most [MAX_ATTEMPTS], causes at most [MAX_ATTEMPTS - a] further
    calls, however many steps are run. *)
Theorem issuer_calls_counted (rid : string) (es : list Env) :
  forall (w : World) (doc : ReqDoc),
    rid <> "" -> invite_requests w !! rid = Some doc ->
    exists doc',
      invite_requests (processSteps sha256 rid es w) !! rid = Some doc' /\
      Z.of_nat (length (telegram (processSteps sha256 rid es w))) =
        (Z.of_nat (length (telegram w)) + (attempts doc' - attempts doc))%Z /\
      (attempts doc <= attempts doc' <= attempts doc + Z.of_nat (length es))%Z /\
      ((attempts doc <= MAX_ATTEMPTS)%Z ->
       (Z.of_nat (length (telegram (processSteps sha256 rid es w)))
        <= Z.of_nat (length (telegram w)) + (MAX_ATTEMPTS - attempts doc))%Z).
Proof.
  induction es as [|e es IH]; intros w doc Hrid Hd.
  - exists doc. cbn [processSteps length]. split; [exact Hd|]. repeat split; lia.
  - cbn [processSteps].
    destruct (processStep_counts rid e w doc Hrid Hd) as (d1 & Hd1 & Ha1 & Hb1 & Hc1).
    destruct (IH _ d1 Hrid Hd1) as (d2 & Hd2 & Hc2 & Ha2 & Hb2).
    exists d2. split; [exact Hd2|]. cbn [length]. repeat split; try lia.
Qed.

(** ** What each path leaves to the other *)

(** X4.  The worker stays out of redemption.  Whatever request it is sent
    and whatever Telegram and WebEngage answer, a worker invocation keeps
    every stored document's [joinEventFired], [telegramUserId] and [joinedAt]
    and posts no "joined" event. *)
Theorem worker_leaves_redemption (req : WorkerReq) (e : Env) (w : World) :
  (forall (rid : string) (doc : ReqDoc),
     invite_requests w !! rid = Some doc ->
     exists doc',
       invite_requests (snd (worker sha256 req e w)) !! rid = Some doc' /\
       joinEventFired doc' = joinEventFired doc /\
       telegramUserId doc' = telegramUserId doc /\
       joinedAt doc' = joinedAt doc) /\
  joined_events (snd (worker sha256 req e w)) = joined_events w.
Proof.
  destruct (worker_paths req e w) as [[-> _]|(rid0 & doc0 & Hrid & Hd0 & Hs & ->)].
  { split; [|reflexivity]. intros rid doc Hd. exists doc. repeat split. exact Hd. }
  split.
  - intros rid doc Hd.
    step_paths rid0 e w doc0 Hrid Hd0 Hs; cbn [snd invite_requests];
      (destruct (decide (rid0 = rid)) as [Heq|Hne];
       [ rewrite ?Heq in *; rewrite lookup_insert_eq; rewrite Hd0 in Hd;
         injection Hd as <-; eexists; split; [reflexivity|]; repeat split
       | rewrite lookup_insert_ne by exact Hne; exists doc; repeat split; exact Hd ]).
  - unfold joined_events.
    step_paths rid0 e w doc0 Hrid Hd0 Hs; cbn [snd webengage]; try reflexivity.
    destruct (weLinkEventFired doc0); [rewrite app_nil_r; reflexivity|].
    rewrite filter_app, filter_cons_False, filter_nil, app_nil_r by (cbn; discriminate).
    reflexivity.
Qed.

(** X5.  The webhook stays out of issuance.  Whatever update it is sent, a
    webhook invocation keeps every stored document's [status], [attempts],
    [inviteLink] and [weLinkEventFired], writes nothing to [invite_lookup],
    queues no task, makes no Telegram call and posts no "link created"
    event. *)
Theorem webhook_leaves_issuance (body : WebhookBody) (e : Env) (w : World) :
  (forall (rid : string) (doc : ReqDoc),
     invite_requests w !! rid = Some doc ->
     exists doc',
       invite_requests (snd (webhook sha256 body e w)) !! rid = Some doc' /\
       status doc' = status doc /\ attempts doc' = attempts doc /\
       inviteLink doc' = inviteLink doc /\
       weLinkEventFired doc' = weLinkEventFired doc) /\
  invite_lookup (snd (webhook sha256 body e w)) = invite_lookup w /\
  queue (snd (webhook sha256 body e w)) = queue w /\
  telegram (snd (webhook sha256 body e w)) = telegram w /\
  link_events (snd (webhook sha256 body e w)) = link_events w.
Proof.
  destruct (webhook_paths body e w)
    as [[-> _]|(link & u & l & doc0 & Hsig & Hl & Hd0 & Hj)].
  { split; [|repeat split]. intros rid doc Hd. exists doc. repeat split. exact Hd. }
  rewrite (webhook_fired sha256 body e w link u l doc0 Hsig Hl Hd0 Hj).
  cbn [snd invite_requests invite_lookup queue telegram]. split; [|repeat split].
  - intros rid doc Hd. destruct (decide (lk_requestId l = rid)) as [Heq|Hne].
    + rewrite ?Heq in *. rewrite lookup_insert_eq. rewrite Hd0 in Hd.
      injection Hd as <-. eexists. split; [reflexivity|]. repeat split.
    + rewrite lookup_insert_ne by exact Hne. exists doc. repeat split. exact Hd.
  - unfold link_events. cbn [webengage].
    rewrite filter_app, filter_cons_False, filter_nil, app_nil_r by (cbn; discriminate).
    reflexivity.
Qed.

(** ** Documents and index in step *)

Lemma is_Some_insert_mono {A : Type} (m : gmap string A) (i k : string) (x : A) :
  is_Some (m !! k) -> is_Some (<[i := x]> m !! k).
Proof.
  intros H. destruct (decide (i = k)) as [->|Hne].
  - rewrite lookup_insert_eq. eauto.
  - rewrite lookup_insert_ne by exact Hne. exact H.
Qed.

Ltac docs_here :=
  let k := fresh "k" in
  let d := fresh "d" in
  let Hk := fresh "Hk" in
  intros k d Hk; cbn [invite_requests invite_lookup] in *;
  apply lookup_insert_Some in Hk as [[<- <-]|[? Hk]];
  [ cbn [requestId status attempts weLinkEventFired inviteLink] | ].

(** An untouched document keeps its facts; the index may have grown. *)
Ltac keep_old Hdocs :=
  lazymatch goal with
  | Hk : invite_requests _ !! ?k = Some ?d |- requestId ?d = ?k /\ _ =>
      let H1 := fresh in let H2 := fresh in let H3 := fresh in
      let H4 := fresh in let H5 := fresh in let H6 := fresh in
      destruct (Hdocs k d Hk) as (H1 & H2 & H3 & H4 & H5 & H6);
      split; [exact H1|]; split; [exact H2|]; split; [exact H3|];
      split; [exact H4|]; split; [exact H5|];
      first [ exact H6
            | let l := fresh "l" in let Hl := fresh "Hl" in
              intros l Hl; apply is_Some_insert_mono, (H6 l Hl) ]
  end.

(** A rewritten document that is not [DONE], has no link and no link flag. *)
Ltac new_live Hr :=
  split; [first [exact Hr | reflexivity]|];
  split; [split; [discriminate | intros [? ?]; discriminate]|];
  split; [lia|]; split; [discriminate|]; split; [discriminate|];
  intros ? ?; discriminate.

Lemma exec_docs_ok (o : Op) (w : World) : docs_ok sha256 w -> docs_ok sha256 (exec sha256 o w).
Proof.
  intros Hdocs. destruct o as [b e|r e|b e]; cbn [exec].
  - destruct (truthy_string (cb_userId b)) as [uid|] eqn:Hu;
      [|rewrite (invite_request_rejected b e w Hu); exact Hdocs].
    rewrite (invite_request_accepted b e w uid Hu). cbn [snd].
    docs_here; [new_live I | keep_old Hdocs].
  - destruct (worker_paths r e w) as [[-> _]|(rid0 & doc0 & Hrid & Hd0 & Hs & ->)];
      [exact Hdocs|].
    destruct (Hdocs rid0 doc0 Hd0) as (Hr0 & Hdl0 & Ha0 & Hda0 & Hwl0 & Hix0).
    assert (Hnone : inviteLink doc0 = None).
    { destruct (inviteLink doc0) eqn:E; [|reflexivity]. exfalso. apply Hs, Hdl0. eauto. }
    assert (Hnw : weLinkEventFired doc0 = false).
    { destruct (weLinkEventFired doc0); [exfalso; apply Hs, Hwl0; reflexivity | reflexivity]. }
    step_paths rid0 e w doc0 Hrid Hd0 Hs; cbn [snd];
      (docs_here; [rewrite ?Hnone, ?Hnw | keep_old Hdocs]); try (new_live Hr0).
    split; [exact Hr0|]. split; [split; eauto|]. split; [lia|]. split; [lia|].
    split; [reflexivity|]. intros l [= <-]. rewrite lookup_insert_eq. eauto.
  - destruct (webhook_paths b e w)
      as [[-> _]|(link & u & l & doc0 & Hsig & Hl & Hd0 & Hj)]; [exact Hdocs|].
    rewrite (webhook_fired sha256 b e w link u l doc0 Hsig Hl Hd0 Hj). cbn [snd].
    docs_here; [|keep_old Hdocs].
    exact (Hdocs (lk_requestId l) doc0 Hd0).
Qed.

Lemma index_ok_requests (w w' : World) (rid : string) (d : ReqDoc) :
  index_ok sha256 w ->
  invite_requests w' = <[rid := d]> (invite_requests w) ->
  invite_lookup w' = invite_lookup w -> index_ok sha256 w'.
Proof.
  intros Hix Hreq Hlk h l Hl. rewrite Hlk in Hl. destruct (Hix h l Hl) as [Hh Hs].
  split; [exact Hh|]. rewrite Hreq. apply is_Some_insert_mono, Hs.
Qed.

Lemma exec_index_ok (o : Op) (w : World) :
  index_ok sha256 w -> index_ok sha256 (exec sha256 o w).
Proof.
  intros Hix. destruct o as [b e|r e|b e]; cbn [exec].
  - destruct (truthy_string (cb_userId b)) as [uid|] eqn:Hu;
      [|rewrite (invite_request_rejected b e w Hu); exact Hix].
    rewrite (invite_request_accepted b e w uid Hu). cbn [snd].
    eapply index_ok_requests; [exact Hix | reflexivity | reflexivity].
  - destruct (worker_paths r e w) as [[-> _]|(rid0 & doc0 & Hrid & Hd0 & Hs & ->)];
      [exact Hix|].
    step_paths rid0 e w doc0 Hrid Hd0 Hs; cbn [snd];
      try (eapply index_ok_requests; [exact Hix | reflexivity | reflexivity]).
    intros h l Hl. cbn [invite_requests invite_lookup] in *.
    apply lookup_insert_Some in Hl as [[<- <-]|[Hne Hl]].
    + cbn [lk_inviteLink lk_requestId]. split; [reflexivity|].
      rewrite lookup_insert_eq. eauto.
    + destruct (Hix h l Hl) as [Hh Hsome]. split; [exact Hh|].
      apply is_Some_insert_mono, Hsome.
  - destruct (webhook_paths b e w)
      as [[-> _]|(link & u & l & doc0 & Hsig & Hl & Hd0 & Hj)]; [exact Hix|].
    rewrite (webhook_fired sha256 b e w link u l doc0 Hsig Hl Hd0 Hj). cbn [snd].
    eapply index_ok_requests; [exact Hix | reflexivity | reflexivity].
Qed.

Lemma run_invariant (P : World -> Prop) (ops : list Op) (w : World) :
  (forall o w, P w -> P (exec sha256 o w)) -> P w -> P (run sha256 ops w).
Proof.
  intros Hstep. revert w. induction ops as [|o ops IH]; intros w Hw; [exact Hw|].
  cbn [run fold_left]. apply IH, Hstep, Hw.
Qed.

(** X6.  What a stored document says about itself, in every world the service
    reaches from the empty one: it sits under its own [requestId]; it is
    [DONE] exactly when it carries an invite link; a [DONE] document has made
    at least one attempt; [weLinkEventFired] is set only on a [DONE] document;
    and the link of a document has an entry in [invite_lookup] under its
    digest. *)
Theorem documents_consistent (ops : list Op) (rid : string) (d : ReqDoc) :
  invite_requests (run sha256 ops empty_world) !! rid = Some d ->
  requestId d = rid /\
  (status d = DONE <-> is_Some (inviteLink d)) /\
  (status d = DONE -> (1 <= attempts d)%Z) /\
  (weLinkEventFired d = true -> status d = DONE) /\
  (forall link, inviteLink d = Some link ->
     is_Some (invite_lookup (run sha256 ops empty_world) !! sha256 link)).
Proof.
  intros Hd.
  assert (Hdocs : docs_ok sha256 (run sha256 ops empty_world)).
  { apply run_invariant; [apply exec_docs_ok|]. intros k x Hk.
    cbn in Hk. rewrite lookup_empty in Hk. discriminate. }
  destruct (Hdocs rid d Hd) as (H1 & H2 & _ & H4 & H5 & H6).
  repeat split; try assumption; apply H2.
Qed.

(** X7.  The index never dangles.  In every world the service reaches from
    the empty one, each entry of [invite_lookup] sits under the digest of its
    own [inviteLink] and names a request that is stored: the webhook's
    "request not found" branch is never taken for a link it finds. *)
Theorem index_never_dangles (ops : list Op) :
  let w := run sha256 ops empty_world in
  (forall (h : string) (l : InvDoc),
     invite_lookup w !! h = Some l ->
     h = sha256 (lk_inviteLink l) /\ is_Some (invite_requests w !! lk_requestId l)) /\
  (forall (body : WebhookBody) (e : Env) (link : string) (tgUser : Z) (l : InvDoc),
     signal_of body = Some (link, tgUser) ->
     invite_lookup w !! sha256 link = Some l ->
     exists doc,
       invite_requests w !! lk_requestId l = Some doc /\
       fst (webhook sha256 body e w) = send "ok" /\
       (joinEventFired doc = false ->
        length (webengage (snd (webhook sha256 body e w))) = S (length (webengage w)))).
Proof.
  intros w.
  assert (Hix : index_ok sha256 w).
  { apply run_invariant; [apply exec_index_ok|]. intros k x Hk.
    cbn in Hk. rewrite lookup_empty in Hk. discriminate. }
  split; [exact Hix|].
  intros body e link u l Hsig Hl. destruct (Hix _ l Hl) as [_ [doc Hd]].
  exists doc. split; [exact Hd|]. destruct (joinEventFired doc) eqn:Hj.
  - rewrite (webhook_latched sha256 body e w link u l doc Hsig Hl Hd Hj).
    split; [reflexivity | discriminate].
  - rewrite (webhook_fired sha256 body e w link u l doc Hsig Hl Hd Hj).
    split; [reflexivity|]. intros _. cbn [snd webengage].
    rewrite length_app. cbn [length]. lia.
Qed.

(** ** Flags and events *)

Lemma backed_mono (evs more : list Event) (P : Event -> Prop) :
  (exists ev, ev ∈ evs /\ P ev) -> exists ev, ev ∈ (evs ++ more)%list /\ P ev.
Proof.
  intros (ev & Hin & HP). exists ev. split; [|exact HP].
  apply elem_of_app. left. exact Hin.
Qed.

Lemma flags_backed_grow (w w' : World) (rid : string) (d0 d' : ReqDoc) (more : list Event) :
  flags_backed w -> invite_requests w !! rid = Some d0 ->
  invite_requests w' = <[rid := d']> (invite_requests w) ->
  webengage w' = (webengage w ++ more)%list ->
  userId d' = userId d0 ->
  (weLinkEventFired d' = true ->
   (weLinkEventFired d0 = true /\ inviteLink d' = inviteLink d0) \/
   exists ev, ev ∈ more /\
     ev_eventName ev = "pass_paid_community_telegram_link_created" /\
     ev_userId ev = userId d' /\ Some (ev_inviteLink ev) = inviteLink d') ->
  (joinEventFired d' = true ->
   (joinEventFired d0 = true /\ telegramUserId d' = telegramUserId d0) \/
   exists ev, ev ∈ more /\
     ev_eventName ev = "pass_paid_community_telegram_joined" /\
     ev_userId ev = userId d' /\
     ev_telegramUserId ev = (pretty <$> telegramUserId d')) ->
  flags_backed w'.
Proof.
  intros Hfb Hd0 Hreq Hev Hu Hlink Hjoin k d Hk. rewrite Hreq in Hk. rewrite Hev.
  apply lookup_insert_Some in Hk as [[<- <-]|[Hne Hk]].
  - destruct (Hfb rid d0 Hd0) as [Hl0 Hj0]. split.
    + intros Hw. destruct (Hlink Hw) as [[Hw0 Hsame]|(ev & Hin & Hn & Hue & Hle)].
      * rewrite Hu, Hsame. apply backed_mono, Hl0, Hw0.
      * exists ev. split; [apply elem_of_app; right; exact Hin|].
        repeat split; assumption.
    + intros Hw. destruct (Hjoin Hw) as [[Hw0 Hsame]|(ev & Hin & Hn & Hue & Hte)].
      * rewrite Hu, Hsame. apply backed_mono, Hj0, Hw0.
      * exists ev. split; [apply elem_of_app; right; exact Hin|].
        repeat split; assumption.
  - destruct (Hfb k d Hk) as [Hl1 Hj1]. split; intros Hw; apply backed_mono; auto.
Qed.

Lemma exec_flags_backed (o : Op) (w : World) :
  docs_ok sha256 w -> flags_backed w -> flags_backed (exec sha256 o w).
Proof.
  intros Hdocs Hfb. destruct o as [b e|r e|b e]; cbn [exec].
  - destruct (truthy_string (cb_userId b)) as [uid|] eqn:Hu;
      [|rewrite (invite_request_rejected b e w Hu); exact Hfb].
    rewrite (invite_request_accepted b e w uid Hu). cbn [snd].
    intros k d Hk. cbn [invite_requests webengage] in *.
    apply lookup_insert_Some in Hk as [[<- <-]|[Hne Hk]]; [|exact (Hfb k d Hk)].
    split; discriminate.
  - destruct (worker_paths r e w) as [[-> _]|(rid0 & doc0 & Hrid & Hd0 & Hs & ->)];
      [exact Hfb|].
    assert (Hnw : weLinkEventFired doc0 = false).
    { destruct (Hdocs rid0 doc0 Hd0) as (_ & _ & _ & _ & Hwl & _).
      destruct (weLinkEventFired doc0); [exfalso; apply Hs, Hwl; reflexivity | reflexivity]. }
    step_paths rid0 e w doc0 Hrid Hd0 Hs; cbn [snd].
    1,3,4: (eapply (flags_backed_grow w _ rid0 doc0 _ []);
            [exact Hfb | exact Hd0 | reflexivity
            | cbn [webengage]; rewrite app_nil_r; reflexivity | reflexivity
            | cbn [weLinkEventFired inviteLink]; intros Hw; left; split;
              [exact Hw | reflexivity]
            | cbn [joinEventFired telegramUserId]; intros Hw; left; split;
              [exact Hw | reflexivity] ]).
    rewrite Hnw.
    eapply (flags_backed_grow w _ rid0 doc0 _ _);
      [exact Hfb | exact Hd0 | reflexivity | reflexivity | reflexivity | | ].
    + cbn [weLinkEventFired inviteLink userId]. intros _. right. eexists.
      split; [apply list_elem_of_singleton; reflexivity|]. repeat split.
    + cbn [joinEventFired telegramUserId]. intros Hw. left. split; [exact Hw | reflexivity].
  - destruct (webhook_paths b e w)
      as [[-> _]|(link & u & l & doc0 & Hsig & Hl & Hd0 & Hj)]; [exact Hfb|].
    rewrite (webhook_fired sha256 b e w link u l doc0 Hsig Hl Hd0 Hj). cbn [snd].
    eapply (flags_backed_grow w _ (lk_requestId l) doc0 _ _);
      [exact Hfb | exact Hd0 | reflexivity | reflexivity | reflexivity | | ].
    + cbn [weLinkEventFired inviteLink]. intros Hw. left. split; [exact Hw | reflexivity].
    + cbn [joinEventFired telegramUserId userId]. intros _. right. eexists.
      split; [apply list_elem_of_singleton; reflexivity|]. repeat split.
Qed.

(** X8.  A set flag has its event.  In every world the service reaches from
    the empty one: a document with [weLinkEventFired] set has a "link created"
    event in the WebEngage log, for the document's user and carrying its
    invite link; a document with [joinEventFired] set has a "joined" event for
    the document's user carrying the recorded Telegram user. *)
Theorem set_flags_have_events (ops : list Op) (rid : string) (d : ReqDoc) :
  invite_requests (run sha256 ops empty_world) !! rid = Some d ->
  (weLinkEventFired d = true ->
   exists ev, ev ∈ webengage (run sha256 ops empty_world) /\
     ev_eventName ev = "pass_paid_community_telegram_link_created" /\
     ev_userId ev = userId d /\ Some (ev_inviteLink ev) = inviteLink d) /\
  (joinEventFired d = true ->
   exists ev, ev ∈ webengage (run sha256 ops empty_world) /\
     ev_eventName ev = "pass_paid_community_telegram_joined" /\
     ev_userId ev = userId d /\
     ev_telegramUserId ev = (pretty <$> telegramUserId d)).
Proof.
  intros Hd.
  assert (Hboth : docs_ok sha256 (run sha256 ops empty_world) /\
                  flags_backed (run sha256 ops empty_world)).
  { apply (run_invariant (fun w => docs_ok sha256 w /\ flags_backed w)).
    - intros o w [H1 H2]. split; [apply exec_docs_ok, H1 | apply exec_flags_backed; assumption].
    - split; intros k x Hk; cbn in Hk; rewrite lookup_empty in Hk; discriminate. }
  exact (proj2 Hboth rid d Hd).
Qed.

(** ** The step that issues a link *)

(** X9.  A worker step in which Telegram issues a link ends [DONE] whatever
    WebEngage answers: the link is stored, the attempt is counted, no task is
    queued, and the [invite_lookup] entry is written before the update to
    [DONE].  If the link flag was unset, one "link created" event is posted
    for the request's user and the flag takes WebEngage's answer; if that
    answer is a failure the flag stays unset for good, since later worker
    steps for the request do nothing. *)
Theorem issued_step (rid : string) (e : Env) (w : World) (doc : ReqDoc) (link : string) :
  rid <> "" -> invite_requests w !! rid = Some doc -> status doc <> DONE ->
  (attempts doc + 1 <= MAX_ATTEMPTS)%Z ->
  tg_ok (tg e) = true -> tg_invite_link (tg e) = Some link ->
  let w' := snd (processStep sha256 rid e w) in
  fst (processStep sha256 rid e w) = send "ok" /\
  (exists doc',
     invite_requests w' !! rid = Some doc' /\ status doc' = DONE /\
     inviteLink doc' = Some link /\ attempts doc' = (attempts doc + 1)%Z /\
     weLinkEventFired doc' = (weLinkEventFired doc || we_ok e)) /\
  queue w' = queue w /\
  (exists rest,
     writes w' =
       (writes w ++
          [w_update_req rid
             [f_status PROCESSING; f_attempts (attempts doc + 1); f_updatedAt (now e 0)];
           w_set_inv (sha256 link)
             (mkInvDoc link rid (userId doc) (transactionId doc) (now e 1));
           w_update_req rid [f_status DONE; f_inviteLink link; f_updatedAt (now e 2)]]
          ++ rest)%list) /\
  (weLinkEventFired doc = false ->
   webengage w' =
     (webengage w ++
        [mkEvent (userId doc) "pass_paid_community_telegram_link_created"
           (transactionId doc) link None])%list) /\
  (weLinkEventFired doc = true -> webengage w' = webengage w) /\
  (forall es : list Env, processSteps sha256 rid es w' = w').
Proof.
  intros Hrid Hd Hs Hn Hok Hlink w'.
  assert (Hw' : status_of rid w' = Some DONE).
  { subst w'. rewrite (processStep_issued sha256 rid e w doc link Hrid Hd Hs Hn Hok Hlink).
    unfold status_of. cbn [snd invite_requests]. rewrite lookup_insert_eq. reflexivity. }
  split; [rewrite (processStep_issued sha256 rid e w doc link Hrid Hd Hs Hn Hok Hlink);
          reflexivity|].
  split; [|split; [|split; [|split; [|split]]]].
  - subst w'. rewrite (processStep_issued sha256 rid e w doc link Hrid Hd Hs Hn Hok Hlink).
    cbn [snd invite_requests]. rewrite lookup_insert_eq. eexists.
    split; [reflexivity|]. cbn [status inviteLink attempts weLinkEventFired].
    repeat split.
  - subst w'. rewrite (processStep_issued sha256 rid e w doc link Hrid Hd Hs Hn Hok Hlink).
    reflexivity.
  - subst w'. rewrite (processStep_issued sha256 rid e w doc link Hrid Hd Hs Hn Hok Hlink).
    cbn [snd writes]. eexists. reflexivity.
  - intros Hf. subst w'.
    rewrite (processStep_issued sha256 rid e w doc link Hrid Hd Hs Hn Hok Hlink).
    cbn [snd webengage]. rewrite Hf. reflexivity.
  - intros Hf. subst w'.
    rewrite (processStep_issued sha256 rid e w doc link Hrid Hd Hs Hn Hok Hlink).
    cbn [snd webengage]. rewrite Hf. apply app_nil_r.
  - intros es. apply processSteps_done. exact Hw'.
Qed.

(** ** A rejected "joined" event *)

(** X10.  A "joined" event that WebEngage rejects is posted again on
    redelivery.  For a valid join update whose link resolves to a stored
    request with [joinEventFired] unset: if WebEngage rejects the event, the
    flag stays unset while the Telegram user and join time are recorded, and
    delivering the same update again posts the event a second time and gives
    the flag WebEngage's new answer. *)
Theorem rejected_join_is_retried (body : WebhookBody) (e1 e2 : Env) (w : World)
    (link : string) (tgUser : Z) (l : InvDoc) (doc : ReqDoc) :
  signal_of body = Some (link, tgUser) ->
  invite_lookup w !! sha256 link = Some l ->
  invite_requests w !! lk_requestId l = Some doc ->
  joinEventFired doc = false ->
  we_ok e1 = false ->
  let w1 := snd (webhook sha256 body e1 w) in
  let w2 := snd (webhook sha256 body e2 w1) in
  (exists d1,
     invite_requests w1 !! lk_requestId l = Some d1 /\ joinEventFired d1 = false /\
     telegramUserId d1 = Some tgUser /\ joinedAt d1 = Some (now e1 0)) /\
  joined_events w1 = S (joined_events w) /\
  joined_events w2 = S (S (joined_events w)) /\
  (exists d2,
     invite_requests w2 !! lk_requestId l = Some d2 /\ joinEventFired d2 = we_ok e2 /\
     telegramUserId d2 = Some tgUser /\ joinedAt d2 = Some (now e2 0)).
Proof.
  intros Hsig Hl Hd Hj Hno w1 w2. subst w2 w1.
  rewrite (webhook_fired sha256 body e1 w link tgUser l doc Hsig Hl Hd Hj). cbn [snd].
  rewrite Hno. set (w1 := mkWorld _ _ _ _ _ _).
  assert (Hd1 : invite_requests w1 !! lk_requestId l =
                Some (mkReqDoc (requestId doc) (userId doc) (transactionId doc)
                        (status doc) (attempts doc) (createdAt doc) (now e1 1)
                        (weLinkEventFired doc) false (inviteLink doc)
                        (Some (now e1 0)) (Some tgUser))).
  { subst w1. cbn [invite_requests]. apply lookup_insert_eq. }
  assert (He1 : joined_events w1 = S (joined_events w)).
  { unfold joined_events. eapply joined_events_snoc; [|subst w1; reflexivity]. reflexivity. }
  split; [eexists; split; [exact Hd1 | repeat split]|]. split; [exact He1|].
  rewrite (webhook_fired sha256 body e2 w1 link tgUser l _ Hsig Hl Hd1 eq_refl). cbn [snd].
  split.
  - rewrite <- He1. unfold joined_events. eapply joined_events_snoc; [|reflexivity].
    reflexivity.
  - cbn [invite_requests]. rewrite lookup_insert_eq. eexists.
    split; [reflexivity | repeat split].
Qed.

(** ** The name of the invite link *)

Lemma substring0_length (m : nat) (s : string) :
  (String.length (String.substring 0 m s) <= m)%nat.
Proof.
  revert s. induction m as [|m IH]; intros s; [destruct s; cbn; lia|].
  destruct s as [|c s]; cbn; [lia|]. specialize (IH s). lia.
Qed.

Lemma substring0_prefix (m : nat) (s : string) :
  String.prefix (String.substring 0 m s) s = true.
Proof.
  revert s. induction m as [|m IH]; intros s; [destruct s; reflexivity|].
  destruct s as [|c s]; cbn; [reflexivity|].
  destruct (Ascii.ascii_dec c c); [apply IH | contradiction].
Qed.

Lemma substring0_all (m : nat) (s : string) :
  (String.length s <= m)%nat -> String.substring 0 m s = s.
Proof.
  revert s. induction m as [|m IH]; intros s Hs.
  - destruct s; [reflexivity | cbn in Hs; lia].
  - destruct s as [|c s]; cbn; [reflexivity|]. f_equal. apply IH. cbn in Hs. lia.
Qed.

Lemma exec_names_bounded (o : Op) (w : World) :
  Forall (fun s => (String.length s <= 255)%nat) (telegram w) ->
  Forall (fun s => (String.length s <= 255)%nat) (telegram (exec sha256 o w)).
Proof.
  intros Hw. destruct o as [b e|r e|b e]; cbn [exec].
  - destruct (truthy_string (cb_userId b)) as [uid|] eqn:Hu.
    + rewrite (invite_request_accepted b e w uid Hu). exact Hw.
    + rewrite (invite_request_rejected b e w Hu). exact Hw.
  - destruct (worker_paths r e w) as [[-> _]|(rid0 & doc0 & Hrid & Hd0 & Hs & ->)];
      [exact Hw|].
    step_paths rid0 e w doc0 Hrid Hd0 Hs; cbn [snd telegram]; try exact Hw;
      (apply Forall_app; split; [exact Hw|]; apply Forall_singleton;
       apply substring0_length).
  - destruct (webhook_paths b e w)
      as [[-> _]|(link & u & l & doc0 & Hsig & Hl & Hd0 & Hj)]; [exact Hw|].
    rewrite (webhook_fired sha256 b e w link u l doc0 Hsig Hl Hd0 Hj). exact Hw.
Qed.

(** X11.  The name given to an invite link is the template
    [uid:..|txn:..|rid:..|a:n] cut to 255 characters: never longer than 255, a
    prefix of the template, and the template itself when that fits.  Every
    name the service has ever sent to Telegram is within the limit.  Lengths
    count the characters of the string, one per position [.slice] counts. *)
Theorem link_name_within_limit (d : ReqDoc) (rid : string) (n : Z) (ops : list Op) :
  (String.length (link_name d rid n) <= 255)%nat /\
  String.prefix (link_name d rid n) (name_template d rid n) = true /\
  ((String.length (name_template d rid n) <= 255)%nat ->
   link_name d rid n = name_template d rid n) /\
  Forall (fun s => (String.length s <= 255)%nat) (telegram (run sha256 ops empty_world)).
Proof.
  split; [apply substring0_length|]. split; [apply substring0_prefix|].
  split; [apply substring0_all|].
  apply (run_invariant (fun w => Forall (fun s => (String.length s <= 255)%nat) (telegram w)));
    [apply exec_names_bounded | constructor].
Qed.

(** ** Nothing is taken back *)

Lemma exec_grows (o : Op) (w : World) :
  dom (invite_requests w) ⊆ dom (invite_requests (exec sha256 o w)) /\
  dom (invite_lookup w) ⊆ dom (invite_lookup (exec sha256 o w)) /\
  queue w `prefix_of` queue (exec sha256 o w) /\
  webengage w `prefix_of` webengage (exec sha256 o w) /\
  telegram w `prefix_of` telegram (exec sha256 o w) /\
  writes w `prefix_of` writes (exec sha256 o w).
Proof.
  assert (Hsame : forall w0 : World,
             dom (invite_requests w0) ⊆ dom (invite_requests w0) /\
             dom (invite_lookup w0) ⊆ dom (invite_lookup w0) /\
             queue w0 `prefix_of` queue w0 /\ webengage w0 `prefix_of` webengage w0 /\
             telegram w0 `prefix_of` telegram w0 /\ writes w0 `prefix_of` writes w0)
    by (intros w0; repeat split; reflexivity).
  destruct o as [b e|r e|b e]; cbn [exec].
  - destruct (truthy_string (cb_userId b)) as [uid|] eqn:Hu.
    + rewrite (invite_request_accepted b e w uid Hu).
      cbn [snd invite_requests invite_lookup queue webengage telegram writes].
      rewrite dom_insert_L.
      repeat split; try reflexivity; try (apply prefix_app_r; reflexivity);
        apply union_subseteq_r.
    + rewrite (invite_request_rejected b e w Hu). apply Hsame.
  - destruct (worker_paths r e w) as [[-> _]|(rid0 & doc0 & Hrid & Hd0 & Hs & ->)];
      [apply Hsame|].
    step_paths rid0 e w doc0 Hrid Hd0 Hs;
      cbn [snd invite_requests invite_lookup queue webengage telegram writes];
      rewrite ?dom_insert_L;
      repeat split; try reflexivity; try (apply prefix_app_r; reflexivity);
        apply union_subseteq_r.
  - destruct (webhook_paths b e w)
      as [[-> _]|(link & u & l & doc0 & Hsig & Hl & Hd0 & Hj)]; [apply Hsame|].
    rewrite (webhook_fired sha256 b e w link u l doc0 Hsig Hl Hd0 Hj).
    cbn [snd invite_requests invite_lookup queue webengage telegram writes].
    rewrite dom_insert_L.
    repeat split; try reflexivity; try (apply prefix_app_r; reflexivity);
        apply union_subseteq_r.
Qed.

(** X12.  Nothing is taken back.  Across any sequence of operations no
    document leaves [invite_requests] or [invite_lookup], and the tasks
    queued, the events posted and the Telegram calls made so far stay as they
    were: later operations only add to them. *)
Theorem nothing_removed (ops : list Op) (w : World) :
  dom (invite_requests w) ⊆ dom (invite_requests (run sha256 ops w)) /\
  dom (invite_lookup w) ⊆ dom (invite_lookup (run sha256 ops w)) /\
  queue w `prefix_of` queue (run sha256 ops w) /\
  webengage w `prefix_of` webengage (run sha256 ops w) /\
  telegram w `prefix_of` telegram (run sha256 ops w).
Proof.
  revert w. induction ops as [|o ops IH]; intros w; [repeat split; reflexivity|].
  cbn [run fold_left].
  destruct (exec_grows o w) as (H1 & H2 & H3 & H4 & H5 & _).
  destruct (IH (exec sha256 o w)) as (I1 & I2 & I3 & I4 & I5).
  repeat split; etrans; eassumption.
Qed.

(** ** Replies *)

(** X13.  What the worker's reply tells.  A worker invocation answers 403
    "Forbidden", 400 "Missing requestId", 200 "ok" or 200 "retry scheduled",
    or ends without a reply (Telegram answered ok with no link in the
    payload).  After a 403 or a 400 the world is untouched.  It answers
    "retry scheduled" exactly when it has queued a task: then one task was
    added, for a request it left [QUEUED]; with any other outcome the queue
    is as before. *)
Theorem worker_reply_and_queue (req : WorkerReq) (e : Env) (w : World) :
  let r := fst (worker sha256 req e w) in
  let w' := snd (worker sha256 req e w) in
  (r = Sent 403 (Text "Forbidden") \/ r = Sent 400 (Text "Missing requestId") \/
   r = send "ok" \/ r = send "retry scheduled" \/ r = Thrown) /\
  (r = Sent 403 (Text "Forbidden") \/ r = Sent 400 (Text "Missing requestId") -> w' = w) /\
  (r = send "retry scheduled" ->
   exists t, queue w' = (queue w ++ [t])%list /\
             status_of (task_requestId t) w' = Some QUEUED) /\
  (r <> send "retry scheduled" -> queue w' = queue w).
Proof.
  intros r w'. subst r w'. unfold send.
  destruct (worker_paths req e w) as [[Hw Hr]|(rid0 & doc0 & Hrid & Hd0 & Hs & ->)].
  - unfold send in Hr. rewrite Hw. split; [tauto|]. split; [reflexivity|].
    split; [|reflexivity]. intros Hx. rewrite Hx in Hr.
    destruct Hr as [Hr|[Hr|Hr]]; discriminate Hr.
  - step_paths rid0 e w doc0 Hrid Hd0 Hs; unfold send; cbn [fst snd queue].
    + split; [tauto|]. split; [intros [Hx|Hx]; discriminate Hx|].
      split; [intros Hx; discriminate Hx | reflexivity].
    + split; [tauto|]. split; [intros [Hx|Hx]; discriminate Hx|].
      split; [intros Hx; discriminate Hx | reflexivity].
    + split; [tauto|]. split; [intros [Hx|Hx]; discriminate Hx|].
      split; [intros Hx; discriminate Hx | reflexivity].
    + split; [tauto|]. split; [intros [Hx|Hx]; discriminate Hx|].
      split; [|intros Hx; contradiction Hx; reflexivity].
      intros _. eexists. split; [reflexivity|].
      unfold status_of. cbn [task_requestId invite_requests].
      rewrite lookup_insert_eq. reflexivity.
Qed.



(** ** When the retry runs *)

(** X16.  The retry task of a refused step.  The delay handed to
    [enqueueWorker] is never zero.  The task carries a schedule time,
    [floor(Date.now() / 1000)] plus the delay, unless the wait-hint is
    negative: then the task has no schedule time and runs at once.  With the
    hint absent or zero the schedule time is ten seconds ahead. *)
Theorem refused_task_schedule (rid : string) (e : Env) (w : World) (doc : ReqDoc) :
  rid <> "" -> invite_requests w !! rid = Some doc -> status doc <> DONE ->
  (attempts doc + 1 <= MAX_ATTEMPTS)%Z -> refused e ->
  exists t,
    queue (snd (processStep sha256 rid e w)) = (queue w ++ [t])%list /\
    task_delaySec t <> 0%Z /\
    (task_scheduleTime t = None <->
     exists h, tg_retry_after (tg e) = Some h /\ (h < 0)%Z) /\
    ((0 < task_delaySec t)%Z ->
     task_scheduleTime t = Some (dateNow e / 1000 + task_delaySec t)%Z) /\
    (tg_retry_after (tg e) = None \/ tg_retry_after (tg e) = Some 0%Z ->
     task_scheduleTime t = Some (dateNow e / 1000 + 10)%Z).
Proof.
  intros Hrid Hd Hs Hn He.
  rewrite (processStep_refused sha256 rid e w doc Hrid Hd Hs Hn He). cbn [snd queue].
  eexists. split; [reflexivity|]. cbn [task_delaySec task_scheduleTime].
  unfold retryAfterOf, truthy_number.
  destruct (tg_retry_after (tg e)) as [h|] eqn:Hh.
  - destruct (Z.eqb_spec h 0) as [->|Hz].
    + split; [discriminate|]. split; [|split; [reflexivity|reflexivity]].
      split; [discriminate|]. intros (h' & [= <-] & Hneg). lia.
    + split; [exact Hz|]. destruct (Z.ltb_spec 0 h) as [Hpos|Hnpos].
      * split; [|split; [reflexivity|]].
        -- split; [discriminate|]. intros (h' & [= <-] & Hneg). lia.
        -- intros [Hx|Hx]; [discriminate Hx | injection Hx as ->; contradiction].
      * split; [|split; [lia|]].
        -- split; [|reflexivity]. intros _. exists h. split; [reflexivity | lia].
        -- intros [Hx|Hx]; [discriminate Hx | injection Hx as ->; contradiction].
  - split; [discriminate|]. split; [|split; [reflexivity|reflexivity]].
    split; [discriminate|]. intros (h' & Hx & _). discriminate Hx.
Qed.

(** ** From request to join *)

(** X17.  The three endpoints in sequence.  A request with a user id, under
    a new non-empty UUID; then the worker step of its task, in which Telegram
    issues a link; then a valid join update carrying that link.  The document
    ends [DONE] after one attempt, with the link, the Telegram user and the
    join time, each flag holding what WebEngage answered to its event; one
    task was queued, one Telegram call made, and the "link created" and
    "joined" events were posted in that order. *)
Theorem request_to_join (body : CreateBody) (e0 e1 e2 : Env) (w : World)
    (uid link : string) (hook : WebhookBody) (tgUser : Z) :
  cb_userId body = Some uid -> uid <> "" ->
  randomUUID e0 <> "" -> invite_requests w !! randomUUID e0 = None ->
  tg_ok (tg e1) = true -> tg_invite_link (tg e1) = Some link ->
  signal_of hook = Some (link, tgUser) ->
  let rid := randomUUID e0 in
  let txn := default "" (cb_transactionId body) in
  let w1 := snd (invite_request body e0 w) in
  let w2 := snd (processStep sha256 rid e1 w1) in
  let w3 := snd (webhook sha256 hook e2 w2) in
  invite_requests w3 !! rid =
    Some (mkReqDoc rid uid txn DONE 1 (now e0 0) (now e2 1) (we_ok e1) (we_ok e2)
            (Some link) (Some (now e2 0)) (Some tgUser)) /\
  invite_lookup w3 !! sha256 link = Some (mkInvDoc link rid uid txn (now e1 1)) /\
  queue w3 = (queue w ++ [mkTask rid 0 None])%list /\
  telegram w3 =
    (telegram w ++
       [link_name (mkReqDoc rid uid txn QUEUED 0 (now e0 0) (now e0 1) false false
                     None None None) rid 1])%list /\
  webengage w3 =
    (webengage w ++
       [mkEvent uid "pass_paid_community_telegram_link_created" txn link None;
        mkEvent uid "pass_paid_community_telegram_joined" txn link
          (Some (pretty tgUser))])%list.
Proof.
  intros Hu Hne Hrid Hfresh Hok Hlink Hsig rid txn w1 w2 w3. subst w3 w2 w1 txn rid.
  rewrite (invite_request_accepted body e0 w uid)
    by (rewrite Hu; apply truthy_string_Some, Hne).
  cbn [snd]. set (w1 := mkWorld _ _ _ _ _ _).
  set (d0 := mkReqDoc (randomUUID e0) uid (default "" (cb_transactionId body)) QUEUED 0
               (now e0 0) (now e0 1) false false None None None).
  assert (Hd1 : invite_requests w1 !! randomUUID e0 = Some d0)
    by (subst w1; cbn [invite_requests]; apply lookup_insert_eq).
  rewrite (processStep_issued sha256 (randomUUID e0) e1 w1 d0 link Hrid Hd1)
    by (first [discriminate | exact Hok | exact Hlink
              | cbn [attempts d0]; unfold MAX_ATTEMPTS; lia]).
  cbn [snd]. set (w2 := mkWorld _ _ _ _ _ _).
  set (l := mkInvDoc link (randomUUID e0) uid (default "" (cb_transactionId body)) (now e1 1)).
  assert (Hl2 : invite_lookup w2 !! sha256 link = Some l)
    by (subst w2; cbn [invite_lookup]; apply lookup_insert_eq).
  assert (Hd2 : invite_requests w2 !! lk_requestId l =
                Some (mkReqDoc (randomUUID e0) uid (default "" (cb_transactionId body))
                        DONE 1 (now e0 0) (now e1 2) (we_ok e1) false (Some link)
                        None None)).
  { subst w2 l. cbn [invite_requests lk_requestId]. rewrite lookup_insert_eq. reflexivity. }
  rewrite (webhook_fired sha256 hook e2 w2 link tgUser l _ Hsig Hl2 Hd2 eq_refl).
  cbn [snd invite_requests invite_lookup queue telegram webengage]. subst l.
  cbn [lk_requestId]. rewrite lookup_insert_eq.
  split; [reflexivity|]. split; [exact Hl2|]. subst w2 w1.
  cbn [queue telegram webengage weLinkEventFired d0].
  rewrite <- !app_assoc. repeat split.
Qed.

(** X18.  A [FAILED] request is an exhausted one.  In every world the
    service reaches from the empty one, a document whose status is [FAILED]
    has exactly [MAX_ATTEMPTS] attempts, no invite link and no link flag. *)
Theorem failed_means_exhausted (ops : list Op) (rid : string) (d : ReqDoc) :
  invite_requests (run sha256 ops empty_world) !! rid = Some d ->
  status d = FAILED ->
  attempts d = MAX_ATTEMPTS /\ inviteLink d = None /\ weLinkEventFired d = false.
Proof.
  intros Hd Hs.
  assert (Hdocs : docs_ok sha256 (run sha256 ops empty_world)).
  { apply run_invariant; [apply exec_docs_ok|]. intros k x Hk.
    cbn in Hk. rewrite lookup_empty in Hk. discriminate. }
  destruct (run_ok sha256 ops empty_world empty_world_ok rid d Hd) as [_ Hf].
  destruct (Hdocs rid d Hd) as (_ & [_ Hdl] & _ & _ & Hwl & _).
  split; [exact (Hf Hs)|]. split.
  - destruct (inviteLink d) eqn:E; [|reflexivity].
    assert (status d = DONE) by (apply Hdl; eauto). congruence.
  - destruct (weLinkEventFired d); [|reflexivity].
    assert (status d = DONE) by (apply Hwl; reflexivity). congruence.
Qed.

(** ** Which writes leave [updatedAt] alone *)

Lemma exec_writes_known (o : Op) (w : World) :
  Forall stamped_or_known (writes w) -> Forall stamped_or_known (writes (exec sha256 o w)).
Proof.
  intros Hw. destruct o as [b e|r e|b e]; cbn [exec].
  - destruct (truthy_string (cb_userId b)) as [uid|] eqn:Hu.
    + rewrite (invite_request_accepted b e w uid Hu). cbn [snd writes].
      apply Forall_app. split; [exact Hw|]. repeat constructor.
    + rewrite (invite_request_rejected b e w Hu). exact Hw.
  - destruct (worker_paths r e w) as [[-> _]|(rid0 & doc0 & Hrid & Hd0 & Hs & ->)];
      [exact Hw|].
    step_paths rid0 e w doc0 Hrid Hd0 Hs; cbn [snd writes];
      repeat (apply Forall_app; split); try exact Hw.
    + repeat constructor.
    + repeat constructor.
    + destruct (weLinkEventFired doc0); [constructor|].
      apply Forall_singleton. right. right. eauto.
    + repeat constructor.
    + apply Forall_cons. split; [left; reflexivity|].
      apply Forall_singleton. right. left. eauto.
  - destruct (webhook_paths b e w)
      as [[-> _]|(link & u & l & doc0 & Hsig & Hl & Hd0 & Hj)]; [exact Hw|].
    rewrite (webhook_fired sha256 b e w link u l doc0 Hsig Hl Hd0 Hj). cbn [snd writes].
    apply Forall_app. split; [exact Hw|]. repeat constructor.
Qed.

(** X19.  Which writes leave [updatedAt] alone.  Of all the writes the
    service ever sends to [invite_requests], only two kinds carry no
    [updatedAt]: the revert [{status: "QUEUED"}] after a refused issuer call
    and the update [{weLinkEventFired}] after the "link created" event.
    Every other write stamps the document. *)
Theorem unstamped_writes (ops : list Op) (x : Write) :
  x ∈ writes (run sha256 ops empty_world) ->
  refreshes x = false ->
  (exists rid, x = w_update_req rid [f_status QUEUED]) \/
  (exists rid b, x = w_update_req rid [f_weLinkEventFired b]).
Proof.
  intros Hin Hno.
  assert (Hall : Forall stamped_or_known (writes (run sha256 ops empty_world))).
  { apply (run_invariant (fun w => Forall stamped_or_known (writes w)));
      [apply exec_writes_known | constructor]. }
  rewrite Forall_forall in Hall. destruct (Hall x Hin) as [Hyes|Hknown]; [congruence|].
  exact Hknown.
Qed.

End Handlers.

(** * Concrete runs of the further properties *)

Lemma ops_mixed_spare : Forall (spares "req-1") ops_mixed.
Proof.
  unfold ops_mixed. repeat (apply Forall_cons; split); try apply Forall_nil;
    cbn; try exact I. discriminate.
Qed.

Lemma ops_issue_world : run sample_sha256 ops_issue empty_world = world_C.
Proof. reflexivity. Qed.

Lemma request_inputs_immutable_witness :
  exists doc',
    invite_requests (run sample_sha256 ops_mixed world_A) !! "req-1" = Some doc' /\
    requestId doc' = "req-1" /\ userId doc' = "u1" /\
    transactionId doc' = "txn1" /\ createdAt doc' = "t0#0" /\
    (0 <= attempts doc')%Z.
Proof.
  apply (request_inputs_immutable sample_sha256 "req-1" ops_mixed world_A doc_A).
  - exact ops_mixed_spare.
  - exact world_A_doc.
Defined.

Lemma latches_hold_witness :
  exists doc',
    invite_requests (run sample_sha256 ops_mixed world_C) !! "req-1" = Some doc' /\
    weLinkEventFired doc' = true /\ status doc' = DONE /\
    inviteLink doc' = Some "X" /\ attempts doc' = 1%Z.
Proof.
  destruct (latches_hold sample_sha256 "req-1" ops_mixed world_C doc_C)
    as (doc' & Hd & Hw & _ & Hdone).
  - exact ops_mixed_spare.
  - exact world_C_doc.
  - destruct (Hdone eq_refl) as (Hs & Hl & Ha). exists doc'.
    split; [exact Hd|]. split; [apply Hw; reflexivity|]. split; [exact Hs|].
    split; [exact Hl | exact Ha].
Defined.

Lemma issuer_calls_counted_witness :
  exists doc',
    invite_requests
      (processSteps sample_sha256 "req-1" (replicate 60 env_refused30) world_A)
      !! "req-1" = Some doc' /\
    (Z.of_nat (length (telegram (processSteps sample_sha256 "req-1"
                                   (replicate 60 env_refused30) world_A))) <= 50)%Z.
Proof.
  destruct (issuer_calls_counted sample_sha256 "req-1" (replicate 60 env_refused30)
              world_A doc_A) as (doc' & Hd & _ & _ & Hb).
  - discriminate.
  - exact world_A_doc.
  - exists doc'. split; [exact Hd|]. apply Hb. vm_compute. discriminate.
Defined.

Lemma documents_consistent_witness :
  requestId doc_C = "req-1" /\
  (status doc_C = DONE <-> is_Some (inviteLink doc_C)) /\
  is_Some (invite_lookup (run sample_sha256 ops_issue empty_world) !! sample_sha256 "X").
Proof.
  destruct (documents_consistent sample_sha256 ops_issue "req-1" doc_C)
    as (H1 & H2 & _ & _ & H5).
  - vm_compute. reflexivity.
  - split; [exact H1|]. split; [exact H2|]. apply H5. reflexivity.
Defined.

Lemma set_flags_have_events_witness :
  exists ev,
    ev ∈ webengage (run sample_sha256 ops_issue empty_world) /\
    ev_eventName ev = "pass_paid_community_telegram_link_created" /\
    ev_userId ev = "u1" /\ Some (ev_inviteLink ev) = Some "X".
Proof.
  apply (proj1 (set_flags_have_events sample_sha256 ops_issue "req-1" doc_C
                  ltac:(vm_compute; reflexivity))).
  reflexivity.
Defined.

Lemma issued_step_witness :
  status_of "req-1" world_C = Some DONE /\
  queue world_C = queue world_A /\
  processSteps sample_sha256 "req-1" [env_refused30; env_issued] world_C = world_C.
Proof.
  destruct (issued_step sample_sha256 "req-1" env_issued world_A doc_A "X")
    as (_ & _ & Hq & _ & _ & _ & Hsteps).
  - discriminate.
  - exact world_A_doc.
  - discriminate.
  - vm_compute. discriminate.
  - reflexivity.
  - reflexivity.
  - split; [vm_compute; reflexivity|]. split; [exact Hq | apply Hsteps].
Defined.

Lemma rejected_join_is_retried_witness :
  let body := join_signal "X" "member" 99 in
  let w1 := snd (webhook sample_sha256 body (sample_env "t2" (tg_issued "X") false) world_C) in
  let w2 := snd (webhook sample_sha256 body (sample_env "t3" (tg_issued "X") true) w1) in
  joined_events w1 = 1%nat /\ joined_events w2 = 2%nat /\
  exists d2, invite_requests w2 !! "req-1" = Some d2 /\ joinEventFired d2 = true.
Proof.
  cbv zeta.
  destruct (rejected_join_is_retried sample_sha256 (join_signal "X" "member" 99)
              (sample_env "t2" (tg_issued "X") false)
              (sample_env "t3" (tg_issued "X") true) world_C "X" 99%Z entry_C doc_C)
    as (_ & H1 & H2 & (d2 & Hd2 & Hj & _)).
  - reflexivity.
  - exact world_C_entry.
  - exact world_C_doc.
  - reflexivity.
  - reflexivity.
  - split; [exact H1|]. split; [exact H2|]. exists d2. split; [exact Hd2 | exact Hj].
Defined.

Lemma refused_task_schedule_witness :
  let e := sample_env "t1" (tg_rate_limited (Some (-5)%Z)) true in
  exists t,
    queue (snd (processStep sample_sha256 "req-1" e world_A)) = (queue world_A ++ [t])%list /\
    task_scheduleTime t = None.
Proof.
  cbv zeta.
  destruct (refused_task_schedule sample_sha256 "req-1"
              (sample_env "t1" (tg_rate_limited (Some (-5)%Z)) true) world_A doc_A)
    as (t & Hq & _ & Hnone & _).
  - discriminate.
  - exact world_A_doc.
  - discriminate.
  - vm_compute. discriminate.
  - reflexivity.
  - exists t. split; [exact Hq|]. apply Hnone. exists (-5)%Z. split; [reflexivity | lia].
Defined.

Lemma request_to_join_witness :
  invite_requests
    (snd (webhook sample_sha256 (join_signal "X" "member" 99)
            (sample_env "t2" (tg_issued "X") true) world_C)) !! "req-1"
  = Some (mkReqDoc "req-1" "u1" "txn1" DONE 1 "t0#0" "t2#1" true true (Some "X")
            (Some "t2#0") (Some 99%Z)).
Proof.
  apply (request_to_join sample_sha256 sample_body
           (sample_env "t0" (tg_rate_limited None) true) env_issued
           (sample_env "t2" (tg_issued "X") true) empty_world "u1" "X"
           (join_signal "X" "member" 99) 99%Z).
  - reflexivity.
  - discriminate.
  - discriminate.
  - reflexivity.
  - reflexivity.
  - reflexivity.
  - reflexivity.
Defined.

Lemma failed_means_exhausted_witness :
  attempts (mkReqDoc "req-1" "u1" "txn1" FAILED 50 "t0#0" "t1#0" false false
              None None None) = MAX_ATTEMPTS.
Proof.
  apply (failed_means_exhausted sample_sha256 ops_exhausted "req-1").
  - vm_compute. reflexivity.
  - reflexivity.
Defined.

Lemma unstamped_writes_witness :
  (exists rid, w_update_req "req-1" [f_status QUEUED] = w_update_req rid [f_status QUEUED]) \/
  (exists rid b,
     w_update_req "req-1" [f_status QUEUED] = w_update_req rid [f_weLinkEventFired b]).
Proof.
  apply (unstamped_writes sample_sha256
           [op_request sample_body (sample_env "t0" (tg_rate_limited None) true);
            op_worker (taskRequest "req-1") env_refused30]
           (w_update_req "req-1" [f_status QUEUED])).
  - apply list_elem_of_In. vm_compute. tauto.
  - reflexivity.
Defined.
